(** * Screenshot-to-clipboard extension: overlay, coordinator and offscreen worker

  A shallow embedding of the extension's scripts:
  - [content_script.js] and [content.js] (first part): the two selection
    overlays ([Overlay], [LegacyOverlay]);
  - [background.js] in its two offscreen variants and the [areaSelected]
    variant ([Background], [LegacyBackground]);
  - [offscreen.js] (second part of [content.js]): the crop-and-copy worker
    ([Offscreen]).

  JavaScript numbers that reach the modelled code are finite (mouse
  coordinates, image sizes, JSON numbers of a message), and are modelled by
  exact rationals; the rounding of [*] on doubles is not modelled. *)

From Stdlib Require Import ZArith QArith Qround Qminmax Qabs String Ascii List Bool Lia DecimalString.
Import ListNotations.
Local Open Scope string_scope.
Set Warnings "-register-all".

(** ** JavaScript values *)

Module JS.

Inductive value : Type :=
| VUndefined
| VNull
| VBool (b : bool)
| VNum (q : Q)
| VStr (s : string)
| VArr (l : list value)
| VObj (fields : list (string * value)).

(** [Error] objects and DOM exceptions, as far as the code reads them. *)
Record error : Type := mkError { err_name : string; err_message : string }.

(** [new Error(msg)] *)
Definition Error (msg : string) : error := mkError "Error" msg.

(** Outcome of a promise. *)
Inductive settled : Type :=
| Fulfilled (v : value)
| Rejected (e : error).

(** [Number::toString] is the engine's; the model takes it as an interface. *)
Class NumberFormat : Type := number_to_string : Q -> string.

Definition truthy (v : value) : bool :=
  match v with
  | VUndefined | VNull => false
  | VBool b => b
  | VNum q => negb (Qeq_bool q 0)
  | VStr s => negb (s =? "")
  | VArr _ | VObj _ => true
  end.

Definition typeof (v : value) : string :=
  match v with
  | VUndefined => "undefined"
  | VNull => "object"
  | VBool _ => "boolean"
  | VNum _ => "number"
  | VStr _ => "string"
  | VArr _ | VObj _ => "object"
  end.

Fixpoint lookup (k : string) (fields : list (string * value)) : value :=
  match fields with
  | [] => VUndefined
  | (k', v) :: rest => if k' =? k then v else lookup k rest
  end.

(** Property read [v.k] on a value that is not [null] or [undefined]
    (the code guards those reads, or uses [?.]). *)
Definition get (v : value) (k : string) : value :=
  match v with
  | VObj fields => lookup k fields
  | VArr l => if k =? "length" then VNum (inject_Z (Z.of_nat (List.length l))) else VUndefined
  | VStr s => if k =? "length" then VNum (inject_Z (Z.of_nat (String.length s))) else VUndefined
  | _ => VUndefined
  end.

(** [a || b] and [a && b] on values. *)
Definition or_else (a b : value) : value := if truthy a then a else b.
Definition and_then (a b : value) : value := if truthy a then b else a.

(** [v === "s"] *)
Definition is_string (v : value) (s : string) : bool :=
  match v with VStr t => t =? s | _ => false end.

(** [v > 0] for the values the code compares ([undefined > 0] is false). *)
Definition gt_zero (v : value) : bool :=
  match v with VNum q => negb (Qle_bool q 0) | _ => false end.

Fixpoint join (sep : string) (l : list string) : string :=
  match l with
  | [] => ""
  | [s] => s
  | s :: rest => s ++ sep ++ join sep rest
  end.

Section ToString.
Context {NF : NumberFormat}.

(** [String(v)], the conversion of a template literal. *)
Fixpoint to_string (v : value) : string :=
  match v with
  | VUndefined => "undefined"
  | VNull => "null"
  | VBool true => "true"
  | VBool false => "false"
  | VNum q => number_to_string q
  | VStr s => s
  | VArr l =>
      join "," (List.map (fun x => match x with
                                   | VUndefined | VNull => ""
                                   | _ => to_string x
                                   end) l)
  | VObj _ => "[object Object]"
  end.
End ToString.

(** [Math.round]: the nearest integer, halves upwards. *)
Definition Math_round (q : Q) : Z := Qfloor (q + (1 # 2)).

Definition num (z : Z) : value := VNum (inject_Z z).

End JS.
Import JS.

(** ** Observable effects

    What a script does to the outside: console output, notifications, the
    reply to a message, messages sent, and (for the worker) the calls on its
    document. The console is modelled by the level and the first argument of
    each call. *)

Inductive level : Type := Info | Warn | Err.

Record blob : Type := mkBlob {
  blob_size : N;            (* blob.size *)
  blob_type : string;       (* blob.type *)
  raster_width : Z;         (* size of the canvas bitmap the blob encodes *)
  raster_height : Z
}.

Inductive event : Type :=
| Console (lvl : level) (text : string)
| Notify (title : string) (message : value)               (* chrome.notifications.create *)
| Respond (reply : value)                              (* sendResponse(reply) *)
| Send (message : value)                               (* chrome.runtime.sendMessage(message) *)
| DrawImage (sx sy sWidth sHeight dWidth dHeight : Z)  (* ctx.drawImage(img, sx, sy, sWidth, sHeight, 0, 0, dWidth, dHeight) *)
| ToBlob (width height : Z)                            (* canvas.toBlob of a width x height canvas *)
| DrawScaled (sx sy sWidth sHeight dWidth dHeight : Q)  (* the same call, with the numbers as computed *)
| ConvertToBlob                                        (* canvas.convertToBlob() *)
| Fetch (url : string)                                 (* fetch(url, {method: "POST", ...}) *)
| Focus                                                (* window.focus() *)
| ClipboardWrite (type : string) (b : blob).           (* navigator.clipboard.write([new ClipboardItem({[type]: b})]) *)

Definition is_respond (e : event) : bool := match e with Respond _ => true | _ => false end.
Definition is_notify (e : event) : bool := match e with Notify _ _ => true | _ => false end.
Definition is_send (e : event) : bool := match e with Send _ => true | _ => false end.
Definition is_warning (e : event) : bool := match e with Console Warn _ => true | _ => false end.
Definition touches_canvas (e : event) : bool :=
  match e with DrawImage _ _ _ _ _ _ | ToBlob _ _ | ClipboardWrite _ _ => true | _ => false end.

Definition replies (t : list event) : list value :=
  flat_map (fun e => match e with Respond v => [v] | _ => [] end) t.
Definition notifications (t : list event) : list (string * value) :=
  flat_map (fun e => match e with Notify a b => [(a, b)] | _ => [] end) t.
Definition sent (t : list event) : list value :=
  flat_map (fun e => match e with Send m => [m] | _ => [] end) t.
Definition warnings (t : list event) : list string :=
  flat_map (fun e => match e with Console Warn s => [s] | _ => [] end) t.

(** [{success: true}] and [{success: false, error: msg}] *)
Definition success_reply : value := VObj [("success", VBool true)].
Definition failure_reply (msg : string) : value :=
  VObj [("success", VBool false); ("error", VStr msg)].

(** ** Sequential code with effects and exceptions

    A computation yields the effects it performed, in order, and its result
    or the exception it threw. *)

Module Eff.

Definition eff (A : Type) : Type := (list event * (A + error))%type.

Definition ret {A : Type} (a : A) : eff A := ([], inl a).
Definition throw {A : Type} (e : error) : eff A := ([], inr e).
Definition emit (ev : event) : eff unit := ([ev], inl tt).

Definition bind {A B : Type} (m : eff A) (f : A -> eff B) : eff B :=
  match m with
  | (t, inl a) => let (t', r) := f a in ((t ++ t')%list, r)
  | (t, inr e) => (t, inr e)
  end.

(** [try { m } catch (e) { handler e }] *)
Definition try_catch {A : Type} (m : eff A) (handler : error -> eff A) : eff A :=
  match m with
  | (t, inl a) => (t, inl a)
  | (t, inr e) => let (t', r) := handler e in ((t ++ t')%list, r)
  end.

Declare Scope eff_scope.
Delimit Scope eff_scope with eff.
Notation "x <- m ;; k" := (bind m (fun x => k))
  (at level 61, m at next level, right associativity) : eff_scope.
Notation "m ;; k" := (bind m (fun _ => k))
  (at level 61, right associativity) : eff_scope.

(** [if (c) throw e;] *)
Definition throw_if (c : bool) (e : error) : eff unit := if c then throw e else ret tt.
(** [if (c) m;] *)
Definition when (c : bool) (m : eff unit) : eff unit := if c then m else ret tt.

End Eff.

(** ** The offscreen worker ([offscreen.js])

    The worker's code is sequential; what its document answers (image
    decoding, [drawImage], [toBlob], the clipboard) is a parameter [host]. *)

Module Offscreen.

Record image : Type := mkImage { img_width : Z; img_height : Z }.

Record host : Type := mkHost {
  load_image : string -> option image;  (* img.src = dataUrl: onload with the decoded image, None for onerror *)
  draw_image : option error;            (* what ctx.drawImage throws, if it throws *)
  to_blob : option (N * string);        (* size and type of the Blob given to the toBlob callback, None for null *)
  has_focus : bool;                     (* typeof window.focus === 'function' *)
  clipboard_write : option error        (* the rejection of navigator.clipboard.write, if it rejects *)
}.

Import Eff.
Local Open Scope eff_scope.

(** [s.startsWith(p)], read after [typeof s === 'string'] held. *)
Definition starts_with (v : value) (p : string) : bool :=
  match v with VStr s => prefix p s | _ => false end.

(** The number in a value that [typeof] reported as ['number']. *)
Definition number_of (v : value) : Q := match v with VNum q => q | _ => 0 end.
Definition string_of (v : value) : string := match v with VStr s => s | _ => "" end.

Section Worker.
Context {NF : NumberFormat}.
Variable h : host.

Definition show (z : Z) : string := number_to_string (inject_Z z).

(** The text of the warning of lines 174-176. *)
Definition outside_warning (sx sy sWidth sHeight : Z) (img : image) : string :=
  "[Offscreen cropImage] DrawImage source rectangle (x:" ++ show sx ++ ", y:" ++ show sy
  ++ ", w:" ++ show sWidth ++ ", h:" ++ show sHeight
  ++ ") may be outside or partially outside source image (w:" ++ show (img_width img)
  ++ ", h:" ++ show (img_height img) ++ "). This can lead to empty or partial crops.".

(** [cropImage(dataUrl, coords)], lines 145-225 of the second part of
    [content.js]; the promise it returns is fulfilled with the result or
    rejected with the exception. *)
Definition cropImage (dataUrl : string) (x y width height : Q) : eff blob :=
  emit (Console Info "[Offscreen cropImage] Starting. Coords:") ;;
  if (dataUrl =? "") || negb (prefix "data:image/" dataUrl) then
    let errMsg := "[Offscreen cropImage] Invalid dataUrl format. Must start with 'data:image/'. Received (first 30 chars): "
                  ++ substring 0 30 dataUrl in
    emit (Console Err errMsg) ;;
    throw (Error errMsg)
  else
    emit (Console Info "[Offscreen cropImage] Image src set (first 100 chars of dataUrl). Waiting for onload/onerror...") ;;
    match load_image h dataUrl with
    | None =>
        emit (Console Err "[Offscreen cropImage] Image load error. Event:") ;;
        throw (Error "Image loading failed in offscreen document. The dataUrl might be malformed or too long.")
    | Some img =>
        emit (Console Info "[Offscreen cropImage] Image loaded. Source img dimensions:") ;;
        let roundedWidth := Z.max 1 (Math_round width) in
        let roundedHeight := Z.max 1 (Math_round height) in
        let canvas_width := roundedWidth in
        let canvas_height := roundedHeight in
        emit (Console Info "[Offscreen cropImage] Canvas created. Dimensions:") ;;
        let sx := Math_round x in
        let sy := Math_round y in
        let sWidth := Z.max 1 (Math_round width) in
        let sHeight := Z.max 1 (Math_round height) in
        when ((sx <? 0)%Z || (sy <? 0)%Z
              || (sx + sWidth >? img_width img + 5)%Z || (sy + sHeight >? img_height img + 5)%Z)
          (emit (Console Warn (outside_warning sx sy sWidth sHeight img))) ;;
        throw_if ((sWidth <=? 0)%Z || (sHeight <=? 0)%Z)
          (Error ("Source dimensions for drawImage are invalid (w:" ++ show sWidth ++ ", h:" ++ show sHeight
                  ++ "). Cannot be zero or negative.")) ;;
        emit (Console Info "[Offscreen cropImage] Drawing image to canvas. Source rect:") ;;
        try_catch
          (emit (DrawImage sx sy sWidth sHeight canvas_width canvas_height) ;;
           match draw_image h with
           | Some e => throw e
           | None => emit (Console Info "[Offscreen cropImage] Image drawn to canvas.")
           end)
          (fun e =>
             emit (Console Err "[Offscreen cropImage] Error during ctx.drawImage:") ;;
             throw (Error ("drawImage failed: " ++ err_name e ++ " - " ++ err_message e
                           ++ ". Check source coords (x:" ++ show sx ++ ",y:" ++ show sy
                           ++ ",w:" ++ show sWidth ++ ",h:" ++ show sHeight ++ ") vs image ("
                           ++ show (img_width img) ++ "x" ++ show (img_height img) ++ ")."))) ;;
        emit (ToBlob canvas_width canvas_height) ;;
        match to_blob h with
        | Some (size, type) =>
            let b := mkBlob size type canvas_width canvas_height in
            if (0 <? size)%N then
              emit (Console Info "[Offscreen cropImage] Canvas converted to Blob. Size:") ;;
              ret b
            else
              emit (Console Warn "[Offscreen cropImage] canvas.toBlob produced an empty blob (size 0). This might be due to fully transparent image or invalid drawImage parameters.") ;;
              ret b
        | None =>
            emit (Console Err "[Offscreen cropImage] canvas.toBlob failed, returned null blob. Canvas might be empty, too large, or tainted.") ;;
            throw (Error "Canvas toBlob failed to produce a blob.")
        end
    end.

(** The [async] function the listener starts for a [cropAndCopy] request,
    lines 83-133; [cropImage] always resolves with the Blob of [toBlob], so
    the [instanceof Blob] test of line 100 passes. *)
Definition cropAndCopy (request : value) : list event :=
  let dataUrl := get request "dataUrl" in
  let coords := get request "coords" in
  fst (try_catch
    (throw_if (negb (truthy dataUrl) || negb (typeof dataUrl =? "string")
               || negb (starts_with dataUrl "data:image/"))
       (Error "Invalid or missing dataUrl.") ;;
     throw_if (negb (truthy coords)
               || negb (typeof (get coords "x") =? "number")
               || negb (typeof (get coords "y") =? "number")
               || negb (typeof (get coords "width") =? "number")
               || negb (typeof (get coords "height") =? "number"))
       (Error "Invalid or missing coordinates.") ;;
     let x := number_of (get coords "x") in
     let y := number_of (get coords "y") in
     let width := number_of (get coords "width") in
     let height := number_of (get coords "height") in
     throw_if (Qle_bool width 0 || Qle_bool height 0)
       (Error ("Crop dimensions are invalid (width: " ++ number_to_string width
               ++ ", height: " ++ number_to_string height ++ "). Must be positive.")) ;;
     emit (Console Info "[Offscreen] Attempting to crop image...") ;;
     b <- cropImage (string_of dataUrl) x y width height ;;
     emit (Console Info "[Offscreen] Image cropped. Blob type:") ;;
     when (blob_size b =? 0)%N
       (emit (Console Warn "[Offscreen] Cropped blob size is 0. The resulting image might be empty. This could also happen if crop coordinates were outside the source image.")) ;;
     emit (Console Info "[Offscreen] Attempting to write to clipboard...") ;;
     (if has_focus h then
        emit (Console Info "[Offscreen] Attempting to focus offscreen window.") ;;
        emit Focus
      else
        emit (Console Warn "[Offscreen] window.focus is not available in this context.")) ;;
     emit (ClipboardWrite (if blob_type b =? "" then "image/png" else blob_type b) b) ;;
     match clipboard_write h with
     | Some e => throw e
     | None =>
         emit (Console Info "[Offscreen] Successfully wrote to clipboard.") ;;
         emit (Respond success_reply)
     end)
    (fun error =>
       emit (Console Err ("[Offscreen] Error in cropAndCopy flow (name: " ++ err_name error ++ "):")) ;;
       when (err_name error =? "NotAllowedError")
         (emit (Console Err "[Offscreen] Clipboard write failed with NotAllowedError. This indicates the document (offscreen) was not focused or did not have active permission. Ensure the 'CLIPBOARD' reason is used for the offscreen document and test focus strategies. The current strategy of creating a fresh offscreen doc and calling window.focus() was attempted.")) ;;
       emit (Respond (failure_reply
         ("Offscreen: " ++ (if err_name error =? "" then "Error" else err_name error) ++ " - "
          ++ (if err_message error =? "" then "Unknown error" else err_message error)))))).

(** The [chrome.runtime.onMessage] listener, lines 71-141: the effects of the
    call (with those of the function it starts) and the value it returns.
    A message is an object. *)
Definition onMessage (request : value) : list event * bool :=
  let t0 := [Console Info "[Offscreen] Received message:"] in
  if negb (is_string (get request "target") "offscreen") then
    ((t0 ++ [Console Warn "[Offscreen] Message not targeted for offscreen. Ignoring."])%list, false)
  else if is_string (get request "action") "cropAndCopy" then
    ((t0 ++ [Console Info "[Offscreen] Action: cropAndCopy. Coords:"] ++ cropAndCopy request)%list, true)
  else
    ((t0 ++ [Console Warn "[Offscreen] Received unhandled action:";
             Respond (failure_reply ("Offscreen: Unknown action '" ++ to_string (get request "action") ++ "'"))])%list,
     false).

End Worker.
End Offscreen.

(** ** The [areaSelected] coordinator (second script of [part_000], lines 174-227)

    It captures, crops on an [OffscreenCanvas], sends the crop to the
    background-removal service and writes the answer to the clipboard. The
    listener takes no [sendResponse] and the script never calls
    [chrome.notifications]. *)

Module LegacyBackground.

Record host : Type := mkHost {
  image_loads : bool;            (* img.onload fires *)
  converted : option blob;       (* the Blob of convertToBlob, None when it rejects *)
  removed : option blob;         (* the body of the service's answer when response.ok, None otherwise *)
  clipboard_write : option error (* the rejection of navigator.clipboard.write, if it rejects *)
}.

(** [cropImage(dataUrl, rect, dpr)], lines 185-202: the effects, and the Blob
    its promise is fulfilled with (None: the promise is never settled). *)
Definition cropImage (h : host) (x y width height dpr : Q) : list event * option blob :=
  if image_loads h then
    ([DrawScaled (x * dpr) (y * dpr) (width * dpr) (height * dpr) width height; ConvertToBlob],
     converted h)
  else ([], None).

(** The listener, lines 174-183, with the callback of [captureVisibleTab];
    the overlay sends numbers in [rect] and [dpr]. *)
Definition onMessage (h : host) (msg : value) : list event :=
  if is_string (get msg "type") "areaSelected" then
    let rect := get msg "rect" in
    let number_of := fun v => match v with VNum q => q | _ => 0 end in
    let (t, cropped) := cropImage h (number_of (get rect "x")) (number_of (get rect "y"))
                                  (number_of (get rect "width")) (number_of (get rect "height"))
                                  (number_of (get msg "dpr")) in
    (t ++ match cropped with
          | None => []
          | Some _ =>
              Fetch "https://api.remove.bg/v1.0/removebg" ::
              match removed h with
              | None => []      (* throw new Error("Background removal failed."), caught by nobody *)
              | Some b =>
                  ClipboardWrite (blob_type b) b ::
                  match clipboard_write h with
                  | Some _ => []
                  | None => [Console Info "✅ Image copied to clipboard with background removed."]
                  end
              end
          end)%list
  else [].

End LegacyBackground.

(** ** The selection overlay ([content_script.js]) *)

Module Overlay.

Record mouse_event : Type := mkMouse { clientX : Q; clientY : Q }.

Record state : Type := mkState {
  active : bool;         (* window.isAreaSelectorActive *)
  attached : bool;       (* overlay and selectionBox are in the document *)
  shown : bool;          (* their style.display is not 'none' *)
  esc_listener : bool;   (* handleEscKey listens for keydown *)
  startX : Q;
  startY : Q;
  isDragging : bool;
  box : Q * Q * Q * Q    (* left, top, width and height of selectionBox.style, in px *)
}.

(** The script, lines 1-27 and 42: nothing when a selector is active. *)
Definition inject (already_active : bool) : option state :=
  if already_active then None
  else Some (mkState true true true true 0 0 false (0, 0, 0, 0)).

(** [cleanup], lines 29-34. *)
Definition cleanup (st : state) : state :=
  mkState false false (shown st) false (startX st) (startY st) (isDragging st) (box st).

(** [handleEscKey], lines 36-40. *)
Definition handleEscKey (key : string) (st : state) : state :=
  if key =? "Escape" then cleanup st else st.

(** The [mousedown] listener, lines 44-53. *)
Definition mousedown (e : mouse_event) (st : state) : state :=
  mkState (active st) (attached st) true (esc_listener st) (clientX e) (clientY e) true
          (clientX e, clientY e, 0, 0).

(** The [mousemove] listener, lines 55-70. *)
Definition mousemove (e : mouse_event) (st : state) : state :=
  if negb (isDragging st) then st
  else
    let currentX := clientX e in
    let currentY := clientY e in
    let width := Qabs (currentX - startX st) in
    let height := Qabs (currentY - startY st) in
    let left := Qmin currentX (startX st) in
    let top := Qmin currentY (startY st) in
    mkState (active st) (attached st) (shown st) (esc_listener st) (startX st) (startY st)
            (isDragging st) (left, top, width, height).

(** The message of lines 89-97. *)
Definition captureArea_message (x y width height devicePixelRatio : Q) : value :=
  VObj [("action", VStr "captureArea");
        ("coords", VObj [("x", VNum (x * devicePixelRatio));
                         ("y", VNum (y * devicePixelRatio));
                         ("width", VNum (width * devicePixelRatio));
                         ("height", VNum (height * devicePixelRatio));
                         ("devicePixelRatio", VNum devicePixelRatio)])].

(** The region of a gesture from [(startX, startY)] to the event, lines 76-82. *)
Definition region (st : state) (e : mouse_event) : Q * Q * Q * Q :=
  let endX := clientX e in
  let endY := clientY e in
  (Qmin (startX st) endX, Qmin (startY st) endY, Qabs (endX - startX st), Qabs (endY - startY st)).

(** The [mouseup] listener, lines 72-113: the state it leaves and what it
    does; the message leaves when the timer of 50 ms fires. *)
Definition mouseup (devicePixelRatio : Q) (e : mouse_event) (st : state) : state * list event :=
  if negb (isDragging st) then (st, [])
  else
    let '(x, y, width, height) := region st e in
    let st1 := mkState (active st) (attached st) false (esc_listener st) (startX st) (startY st)
                       false (box st) in
    if negb (Qle_bool width 0) && negb (Qle_bool height 0) then
      (st1, [Send (captureArea_message x y width height devicePixelRatio)])
    else
      (cleanup st1, []).

(** The callback of [sendMessage], lines 98-108. *)
Definition on_response (lastError response : value) (st : state) : state * list event :=
  (cleanup st,
   if truthy lastError then
     [Console Err "ContentScript: Error sending message to background:"]
   else if truthy response && negb (truthy (get response "success")) then
     [Console Err "ContentScript: Screenshot failed:"]
   else if truthy response && truthy (get response "success") then
     [Console Info "ContentScript: Screenshot successful message received."]
   else []).

End Overlay.

(** ** The selection overlay of [content.js] (first part) *)

Module LegacyOverlay.

Record mouse_event : Type := mkMouse { pageX : Q; pageY : Q }.

(** What [getBoundingClientRect] returns. *)
Record rect : Type := mkRect { left : Q; top : Q; width : Q; height : Q }.

Record state : Type := mkState {
  active : bool;                      (* window.__smartScreenshotActive__ *)
  selectionBox : option (Q * Q * Q * Q);  (* left, top, width, height of its style, when it exists *)
  startX : Q;
  startY : Q;
  isSelecting : bool;
  listening : bool                    (* onMouseMove and onMouseUp listen on the document *)
}.

(** The script, lines 1-7 and 63-64. *)
Definition inject (already_active : bool) : option state :=
  if already_active then None
  else Some (mkState true None 0 0 false false).

(** [onMouseDown], lines 9-24. *)
Definition onMouseDown (e : mouse_event) (st : state) : state :=
  if isSelecting st then st
  else mkState (active st) (Some (pageX e, pageY e, 0, 0)) (pageX e) (pageY e) true true.

(** [onMouseMove], lines 26-36. *)
Definition onMouseMove (e : mouse_event) (st : state) : state :=
  match selectionBox st with
  | Some _ =>
      if negb (isSelecting st) then st
      else
        let currentX := pageX e in
        let currentY := pageY e in
        mkState (active st)
                (Some (Qmin currentX (startX st), Qmin currentY (startY st),
                       Qabs (currentX - startX st), Qabs (currentY - startY st)))
                (startX st) (startY st) (isSelecting st) (listening st)
  | None => st
  end.

(** The message of lines 49-58. *)
Definition areaSelected_message (r : rect) (devicePixelRatio : Q) : value :=
  VObj [("type", VStr "areaSelected");
        ("rect", VObj [("x", VNum (left r)); ("y", VNum (top r));
                       ("width", VNum (width r)); ("height", VNum (height r))]);
        ("dpr", VNum devicePixelRatio)].

(** [onMouseUp], lines 38-61; [r] is the bounding rectangle of the
    selection box when the button is released. *)
Definition onMouseUp (devicePixelRatio : Q) (r : rect) (st : state) : state * list event :=
  match selectionBox st with
  | Some _ =>
      if negb (isSelecting st) then (st, [])
      else
        (mkState false None (startX st) (startY st) false false,
         [Send (areaSelected_message r devicePixelRatio)])
  | None => (st, [])
  end.

End LegacyOverlay.

(** ** Asynchronous code of the background script

    An [async] function is a tree of the things it does, in the order of the
    code: effects, reads and writes of the module variable
    [creatingOffscreenPromise], calls of the asynchronous platform API, and
    the points where it is suspended. [Call c k] stands for [await] of the
    platform call [c]; [CreateDocument] for the call of
    [chrome.offscreen.createDocument], whose promise the code keeps and
    awaits separately ([AwaitPromise]); [Tick] for the resumption after
    [await] of an [async] function of the script itself. *)

Module Async.

Inductive call : Type :=
| GetContexts                          (* getContexts({contextTypes: ['OFFSCREEN_DOCUMENT'], documentUrls: [...]}) *)
| CloseDocument                        (* chrome.offscreen.closeDocument() *)
| CaptureVisibleTab (windowId : value) (* chrome.tabs.captureVisibleTab(windowId, {format: "png"}) *)
| SendMessage (message : value).       (* chrome.runtime.sendMessage(message) *)

Inductive prog (A : Type) : Type :=
| Ret (a : A)
| Throw (e : error)
| Emit (ev : event) (k : prog A)
| Tick (k : prog A)
| Call (c : call) (k : settled -> prog A)
| CreateDocument (k : nat -> prog A)
| AwaitPromise (p : nat) (k : settled -> prog A)
| ReadMarker (k : option nat -> prog A)
| WriteMarker (m : option nat) (k : prog A)
| LastError (k : value -> prog A).

Arguments Ret {A} a.
Arguments Throw {A} e.
Arguments Emit {A} ev k.
Arguments Tick {A} k.
Arguments Call {A} c k.
Arguments CreateDocument {A} k.
Arguments AwaitPromise {A} p k.
Arguments ReadMarker {A} k.
Arguments WriteMarker {A} m k.
Arguments LastError {A} k.

(** Sequencing: [p] then, on normal completion with [a], [on_ret a]; if [p]
    throws [e], [on_throw e]. *)
Fixpoint cases {A B : Type} (p : prog A) (on_ret : A -> prog B) (on_throw : error -> prog B) : prog B :=
  match p with
  | Ret a => on_ret a
  | Throw e => on_throw e
  | Emit ev k => Emit ev (cases k on_ret on_throw)
  | Tick k => Tick (cases k on_ret on_throw)
  | Call c k => Call c (fun s => cases (k s) on_ret on_throw)
  | CreateDocument k => CreateDocument (fun n => cases (k n) on_ret on_throw)
  | AwaitPromise n k => AwaitPromise n (fun s => cases (k s) on_ret on_throw)
  | ReadMarker k => ReadMarker (fun m => cases (k m) on_ret on_throw)
  | WriteMarker m k => WriteMarker m (cases k on_ret on_throw)
  | LastError k => LastError (fun v => cases (k v) on_ret on_throw)
  end.

Definition bind {A B : Type} (p : prog A) (f : A -> prog B) : prog B := cases p f Throw.

(** [try { p } catch (e) { handler e }] *)
Definition try_catch {A : Type} (p : prog A) (handler : error -> prog A) : prog A :=
  cases p Ret handler.

(** [try { p } finally { f }] *)
Definition try_finally {A : Type} (p : prog A) (f : prog unit) : prog A :=
  cases p (fun a => bind f (fun _ => Ret a)) (fun e => bind f (fun _ => Throw e)).

(** [await f()] for an [async] function [f] of the script: the caller goes on
    one tick after [f] has returned or thrown. *)
Definition await_async {A : Type} (p : prog A) : prog A :=
  cases p (fun a => Tick (Ret a)) (fun e => Tick (Throw e)).

(** [await] of a platform call: the value, or the rejection thrown. *)
Definition await_call (c : call) : prog value :=
  Call c (fun s => match s with Fulfilled v => Ret v | Rejected e => Throw e end).

(** [await p] of a kept promise. *)
Definition await_promise (p : nat) : prog value :=
  AwaitPromise p (fun s => match s with Fulfilled v => Ret v | Rejected e => Throw e end).

Definition emit (ev : event) : prog unit := Emit ev (Ret tt).
Definition read_marker : prog (option nat) := ReadMarker Ret.
Definition write_marker (m : option nat) : prog unit := WriteMarker m (Ret tt).
Definition create_document : prog nat := CreateDocument Ret.
Definition last_error : prog value := LastError Ret.

End Async.

Declare Scope prog_scope.
Delimit Scope prog_scope with prog.
Notation "x <- m ;; k" := (Async.bind m (fun x => k))
  (at level 61, m at next level, right associativity) : prog_scope.
Notation "m ;; k" := (Async.bind m (fun _ => k))
  (at level 61, right associativity) : prog_scope.

(** ** The coordinator ([background.js])

    [V1] is the first script of [part_000] (lines 1-174), [V2] the third
    (lines 227-432, "Version with runtime.getContexts fix"). They differ in
    the offscreen document management; the message listener is the same. *)

Module Background.
Import Async.
Local Open Scope prog_scope.

Inductive variant : Type := V1 | V2.

(** Which parts of the extension API the browser provides. *)
Record env : Type := mkEnv {
  offscreen_api : bool;        (* chrome.offscreen *)
  runtime_getContexts : bool   (* chrome.runtime.getContexts *)
}.

Section Script.
Context {NF : NumberFormat}.
Variable v : variant.
Variable e : env.

(** [const contexts = await ...getContexts({...}); return contexts && contexts.length > 0;] *)
Definition query_contexts : prog value :=
  contexts <- await_call GetContexts ;;
  Ret (and_then contexts (VBool (gt_zero (get contexts "length")))).

(** [hasOffscreenDocument], lines 7-17 and 233-245. *)
Definition hasOffscreenDocument : prog value :=
  match v with
  | V1 =>
      if negb (offscreen_api e) then
        emit (Console Warn "Background: chrome.offscreen API not available.") ;;
        Ret (VBool false)
      else query_contexts
  | V2 =>
      if runtime_getContexts e then query_contexts
      else
        emit (Console Warn "Background: chrome.runtime.getContexts API not available. Offscreen document check might be unreliable.") ;;
        Ret (VBool false)
  end.

(** [closeOffscreenDocument], lines 20-32 and 247-270. *)
Definition closeOffscreenDocument : prog unit :=
  match v with
  | V1 =>
      if negb (offscreen_api e) then Ret tt
      else
        open <- await_async hasOffscreenDocument ;;
        if truthy open then
          emit (Console Info "Background: Closing existing offscreen document.") ;;
          try_catch
            (await_call CloseDocument ;; Ret tt)
            (fun err =>
               emit (Console Warn "Background: Error during closeDocument (it might have auto-closed or already been closing):"))
        else
          emit (Console Info "Background: No active offscreen document to close.")
  | V2 =>
      if negb (offscreen_api e) then
        emit (Console Warn "Background: chrome.offscreen API not available for closing.")
      else
        try_catch
          (open <- await_async hasOffscreenDocument ;;
           if truthy open then
             emit (Console Info "Background: Attempting to close existing offscreen document.") ;;
             await_call CloseDocument ;;
             emit (Console Info "Background: closeDocument call completed.")
           else
             emit (Console Info "Background: No active offscreen document found to close."))
          (fun err =>
             emit (Console Warn "Background: Error or warning during closeDocument (e.g., no document to close, or it was closing):"))
  end.

(** [await creatingOffscreenPromise] *)
Definition await_marker : prog value :=
  m <- read_marker ;;
  match m with
  | Some p => await_promise p
  | None => Tick (Ret VNull)
  end.

Definition in_progress_text : string :=
  "Background: Offscreen document creation already in progress by another call. Awaiting its completion.".

Definition creating_text : string :=
  "Background: Creating a new offscreen document for clipboard operation.".

Definition created_text : string :=
  "Background: New offscreen document created successfully.".

(** The creation itself, lines 53-71 and 308-326. *)
Definition create_fresh : prog unit :=
  emit (Console Info creating_text) ;;
  p <- create_document ;;
  write_marker (Some p) ;;
  try_finally
    (try_catch
       (await_marker ;;
        emit (Console Info created_text))
       (fun error =>
          emit (Console Err "Background: Error creating new offscreen document:") ;;
          match v with
          | V1 => write_marker None ;; Throw error
          | V2 => Throw error
          end))
    (write_marker None).

(** [setupOffscreenDocumentForClipboard], lines 34-72 and 273-327. *)
Definition setupOffscreenDocumentForClipboard : prog unit :=
  if negb (offscreen_api e) then
    Throw (Error "Background: chrome.offscreen API is not available. Cannot proceed.")
  else
    match v with
    | V1 =>
        await_async closeOffscreenDocument ;;
        m <- read_marker ;;
        match m with
        | Some _ =>
            emit (Console Info in_progress_text) ;;
            await_marker ;;
            Ret tt
        | None => create_fresh
        end
    | V2 =>
        let check_then_create :=
          open <- await_async hasOffscreenDocument ;;
          if truthy open then
            emit (Console Info "Background: Offscreen document already exists (possibly created by a concurrent call). No need to create again.")
          else create_fresh in
        emit (Console Info "Background: Ensuring any previous offscreen document is closed before creating a new one.") ;;
        await_async closeOffscreenDocument ;;
        m <- read_marker ;;
        match m with
        | Some _ =>
            emit (Console Info in_progress_text) ;;
            await_marker ;;
            open <- await_async hasOffscreenDocument ;;
            if truthy open then
              emit (Console Info "Background: Offscreen document created by concurrent call is now ready.")
            else
              emit (Console Warn "Background: Concurrent offscreen creation seems to have failed. Will attempt to create now.") ;;
              check_then_create
        | None => check_then_create
        end
    end.

(** [error.message || "An unexpected error occurred."] *)
Definition message_or_default (error : JS.error) : string :=
  if err_message error =? "" then "An unexpected error occurred." else err_message error.

(** The message of lines 127-132. *)
Definition cropAndCopy_message (dataUrl coords : value) : value :=
  VObj [("target", VStr "offscreen"); ("action", VStr "cropAndCopy");
        ("dataUrl", dataUrl); ("coords", coords)].

Definition unknown_error_text : string := "Unknown error from screenshot processing service.".

(** Capture, crop request and report, lines 118-154 and 375-411. *)
Definition capture_and_crop (request sender : value) : prog unit :=
  emit (Console Info "Background: Capturing visible tab for windowId:") ;;
  dataUrl <- await_call (CaptureVisibleTab (get (get sender "tab") "windowId")) ;;
  lastError <- last_error ;;
  if truthy lastError || negb (truthy dataUrl) then
    Throw (Error ("Failed to capture tab: "
                  ++ to_string (or_else (get lastError "message") (VStr "No dataUrl received"))))
  else
    emit (Console Info "Background: Tab captured. DataURL length (approx):") ;;
    emit (Console Info "Background: Sending data to offscreen document for cropping.") ;;
    offscreenResponse <- await_call (SendMessage (cropAndCopy_message dataUrl (get request "coords"))) ;;
    lastError <- last_error ;;
    if truthy lastError then
      Throw (Error ("Error messaging offscreen: " ++ to_string (get lastError "message")))
    else if truthy (and_then offscreenResponse (get offscreenResponse "success")) then
      emit (Console Info "Background: Offscreen document reported success.") ;;
      emit (Notify "Screenshot Copied!" (VStr "The selected area has been copied to your clipboard.")) ;;
      emit (Respond success_reply)
    else
      let errorMsg := or_else (get offscreenResponse "error") (VStr unknown_error_text) in
      emit (Console Err "Background: Offscreen document reported failure:") ;;
      emit (Notify "Screenshot Failed" errorMsg) ;;
      emit (Respond (VObj [("success", VBool false); ("error", errorMsg)])).

(** The [catch] of lines 156-164 and 413-421. *)
Definition report_error (error : JS.error) : prog unit :=
  emit (Console Err "Background: Error during captureArea flow:") ;;
  emit (Notify "Screenshot Error" (VStr (message_or_default error))) ;;
  emit (Respond (failure_reply ("Background: " ++ message_or_default error))).

(** The [async] function the listener starts for a [captureArea] request of a
    tab, lines 114-165 and 371-422. *)
Definition captureArea (request sender : value) : prog unit :=
  try_catch
    (await_async setupOffscreenDocumentForClipboard ;;
     capture_and_crop request sender)
    report_error.

(** The first lines of the listener, 105 and 360-361, and its last warning,
    170 and 427. *)
Definition received_text (request sender : value) : string :=
  match v with
  | V1 => "Background: Received message:"
  | V2 =>
      let source :=
        if truthy (get sender "tab") then "tab " ++ to_string (get (get sender "tab") "id")
        else if truthy (get sender "documentId") then
          "offscreen (documentId: " ++ to_string (get sender "documentId") ++ ")"
        else "extension context" in
      "Background: Received message: '" ++ to_string (get request "action") ++ "' from " ++ source
  end.

Definition unhandled_text (request : value) : string :=
  match v with
  | V1 => "Background: Received unhandled message action:"
  | V2 => "Background: Received unhandled message action: '" ++ to_string (get request "action") ++ "'"
  end.

(** The [chrome.runtime.onMessage] listener, lines 104-172 and 359-430: what
    it does before it returns, the value it returns, and the [async]
    function it has started, if any. *)
Definition onMessage (request sender : value) : list event * bool * option (prog unit) :=
  let t0 := [Console Info (received_text request sender)] in
  if is_string (get request "action") "captureArea" then
    if negb (truthy (get sender "tab")) then
      ((t0 ++ [Console Err "Background: 'captureArea' message received without sender.tab. This is unexpected.";
               Respond (failure_reply "Background: Internal error - missing tab context.")])%list,
       false, None)
    else (t0, true, Some (captureArea request sender))
  else
    ((t0 ++ [Console Warn (unhandled_text request)])%list, false, None).

End Script.
End Background.

(** ** The toolbar icon ([background.js]) and the popup ([part_001])

    Both inject an overlay into the active tab: the icon
    [content_script.js], the popup [content.js] after its stylesheet. *)

Module Scripting.

(** [chrome.tabs.Tab], as far as the scripts read it; [id] and [url] are
    optional. *)
Record tab : Type := mkTab { tab_id : option Z; tab_url : option string }.

Inductive step : Type :=
| Effect (ev : event)
| InsertCSS (tabId : option Z) (file : string)       (* chrome.scripting.insertCSS({target: {tabId}, files: [file]}) *)
| ExecuteScript (tabId : option Z) (file : string).  (* chrome.scripting.executeScript({target: {tabId}, files: [file]}) *)

(** [!tab.id] *)
Definition no_id (t : tab) : bool :=
  match tab_id t with
  | None => true
  | Some id => (id =? 0)%Z
  end.

(** [tab.url?.startsWith(p)], [undefined] counting as false. *)
Definition url_starts_with (t : tab) (p : string) : bool :=
  match tab_url t with
  | Some url => prefix p url
  | None => false
  end.

(** The [chrome.action.onClicked] listener, lines 76-101 and 331-356 of
    [part_000]; [injection] is the rejection of [executeScript], if it
    rejects. *)
Definition onClicked (injection : option error) (t : tab) : list step :=
  if no_id t then
    [Effect (Console Err "Background: Tab ID is missing on action click.")]
  else if negb (url_starts_with t "http://" || url_starts_with t "https://") then
    [Effect (Console Warn "Background: Cannot inject script into non-http(s) pages. Tab URL:");
     Effect (Notify "Action Failed" (VStr "Screenshots can only be taken on http or https pages."))]
  else
    [Effect (Console Info "Background: Injecting content script into tab:");
     ExecuteScript (tab_id t) "content_script.js";
     match injection with
     | None => Effect (Console Info "Background: Content script injected successfully.")
     | Some _ => Effect (Console Err "Background: Failed to inject content script:")
     end].

(** How the callback of [chrome.tabs.query] in the popup ends. *)
Inductive ending : Type :=
| Done
| NoTab                    (* [tab] is undefined: reading [tab.id] throws *)
| Rejected_by (e : error). (* the rejection of [insertCSS] *)

(** The click listener of the popup, [part_001]: [tabs] is what
    [chrome.tabs.query] passes to the callback, [css] the rejection of
    [insertCSS], if it rejects. *)
Definition onStart (tabs : list tab) (css : option error) : list step * ending :=
  match tabs with
  | [] => ([], NoTab)
  | t :: _ =>
      match css with
      | Some e => ([InsertCSS (tab_id t) "selection-style.css"], Rejected_by e)
      | None =>
          ([InsertCSS (tab_id t) "selection-style.css"; ExecuteScript (tab_id t) "content.js"], Done)
      end
  end.

Definition effects_of (l : list step) : list event :=
  flat_map (fun s => match s with Effect ev => [ev] | _ => [] end) l.
Definition injected (l : list step) : list (option Z * string) :=
  flat_map (fun s => match s with ExecuteScript id f => [(id, f)] | _ => [] end) l.

End Scripting.

(** ** The browser side of the coordinator

    The state the platform keeps for the background script, and what it
    answers. At most one offscreen document is live; [createDocument] is
    rejected while one exists; [closeDocument] is rejected when none does;
    [getContexts] lists the live document, under whichever name the script
    calls it ([chrome.offscreen.getContexts] in the first variant,
    [chrome.runtime.getContexts], when the browser has it, in the second):
    the functions a script calls without a test are taken to be there. The
    document is live from the moment the promise of [createDocument] is
    fulfilled. What the platform decides freely
    (whether a creation succeeds, the captured image, the reply of the
    worker) is read from [script], one entry per decision, in the order the
    decisions are taken; with no entry left the platform never answers. *)

Module Runtime.
Import Async.

Inductive entry : Type :=
| Did (who : nat) (ev : event)          (* an effect of invocation [who] *)
| Invoked (who : nat) (c : call)        (* a platform call, when it is made *)
| Answered (who : nat) (c : call) (a : settled)  (* [await] of the call goes on with [a] *)
| Creating (who : nat) (p : nat)        (* createDocument called; [p] is its promise *)
| Awaited (who : nat) (p : nat) (a : settled).   (* [await] of promise [p] goes on with [a] *)

Record world : Type := mkWorld {
  doc : option nat;                  (* the live offscreen document: its number, 0 for one that existed before *)
  docs_created : nat;                (* documents created so far *)
  promises : list (option settled);  (* the createDocument promises; None while pending *)
  marker : option nat;               (* creatingOffscreenPromise *)
  lastError : value;                 (* chrome.runtime.lastError *)
  script : list settled;
  log : list entry                   (* in the order of time *)
}.

Definition add (x : entry) (w : world) : world :=
  mkWorld (doc w) (docs_created w) (promises w) (marker w) (lastError w) (script w) (log w ++ [x]).
Definition set_marker (m : option nat) (w : world) : world :=
  mkWorld (doc w) (docs_created w) (promises w) m (lastError w) (script w) (log w).
Definition set_promises (ps : list (option settled)) (w : world) : world :=
  mkWorld (doc w) (docs_created w) ps (marker w) (lastError w) (script w) (log w).
Definition set_script (sc : list settled) (w : world) : world :=
  mkWorld (doc w) (docs_created w) (promises w) (marker w) (lastError w) sc (log w).
Definition close_doc (w : world) : world :=
  mkWorld None (docs_created w) (promises w) (marker w) (lastError w) (script w) (log w).
Definition open_doc (w : world) : world :=
  mkWorld (Some (S (docs_created w))) (S (docs_created w)) (promises w) (marker w) (lastError w)
          (script w) (log w).

Definition single_document_error : error := Error "Only a single offscreen document may be created.".
Definition no_document_error : error := Error "No current offscreen document.".

(** The document context [getContexts] reports. *)
Definition context_of (d : nat) : value :=
  VObj [("contextType", VStr "OFFSCREEN_DOCUMENT"); ("documentId", num (Z.of_nat d))].

(** The answer to an awaited call, and the state after it. *)
Definition answer (c : call) (w : world) : option (settled * world) :=
  match c with
  | GetContexts =>
      Some (Fulfilled (VArr (match doc w with Some d => [context_of d] | None => [] end)), w)
  | CloseDocument =>
      match doc w with
      | Some _ => Some (Fulfilled VUndefined, close_doc w)
      | None => Some (Rejected no_document_error, w)
      end
  | CaptureVisibleTab _ | SendMessage _ =>
      match script w with
      | a :: rest => Some (a, set_script rest w)
      | [] => None
      end
  end.

(** The outcome of a [createDocument] call. *)
Definition settle_creation (w : world) : option (settled * world) :=
  match doc w with
  | Some _ => Some (Rejected single_document_error, w)
  | None =>
      match script w with
      | Fulfilled _ :: rest => Some (Fulfilled VUndefined, open_doc (set_script rest w))
      | Rejected e :: rest => Some (Rejected e, set_script rest w)
      | [] => None
      end
  end.

Fixpoint update {X : Type} (n : nat) (x : X) (l : list X) : list X :=
  match l, n with
  | [], _ => []
  | _ :: rest, O => x :: rest
  | y :: rest, S m => y :: update m x rest
  end.

(** *** One invocation on its own *)

Inductive outcome (A : Type) : Type :=
| Returned (a : A)
| Threw (e : error)
| Pending.            (* suspended on an answer that never comes *)
Arguments Returned {A} a.
Arguments Threw {A} e.
Arguments Pending {A}.

Fixpoint run {A : Type} (who : nat) (p : prog A) (w : world) : outcome A * world :=
  match p with
  | Ret a => (Returned a, w)
  | Throw e => (Threw e, w)
  | Emit ev k => run who k (add (Did who ev) w)
  | Tick k => run who k w
  | Call c k =>
      let w1 := add (Invoked who c) w in
      match answer c w1 with
      | Some (s, w2) => run who (k s) (add (Answered who c s) w2)
      | None => (Pending, w1)
      end
  | CreateDocument k =>
      let n := List.length (promises w) in
      run who (k n) (add (Creating who n) (set_promises (promises w ++ [None]) w))
  | AwaitPromise n k =>
      match nth_error (promises w) n with
      | Some (Some s) => run who (k s) (add (Awaited who n s) w)
      | Some None =>
          match settle_creation w with
          | Some (s, w1) =>
              run who (k s) (add (Awaited who n s) (set_promises (update n (Some s) (promises w1)) w1))
          | None => (Pending, w)
          end
      | None => (Pending, w)
      end
  | ReadMarker k => run who (k (marker w)) w
  | WriteMarker m k => run who k (set_marker m w)
  | LastError k => run who (k (lastError w)) w
  end.

(** [every_path who le p Q t]: on every path through [p], whatever the
    platform answers and whatever the module variable holds, with
    [chrome.runtime.lastError] being [le], [Q] holds of the entries logged
    (after [t]) and of the result, and also, with [Pending], wherever [p]
    waits for the platform. *)
Fixpoint every_path {A : Type} (who : nat) (le : value) (p : prog A)
         (Q : list entry -> outcome A -> Prop) (t : list entry) : Prop :=
  match p with
  | Ret a => Q t (Returned a)
  | Throw e => Q t (Threw e)
  | Emit ev k => every_path who le k Q (t ++ [Did who ev])
  | Tick k => every_path who le k Q t
  | Call c k =>
      Q (t ++ [Invoked who c])%list Pending
      /\ forall s, every_path who le (k s) Q (t ++ [Invoked who c; Answered who c s])
  | CreateDocument k => forall n, every_path who le (k n) Q (t ++ [Creating who n])
  | AwaitPromise n k =>
      Q t Pending
      /\ forall s, every_path who le (k s) Q (t ++ [Awaited who n s])
  | ReadMarker k => forall m, every_path who le (k m) Q t
  | WriteMarker m k => every_path who le k Q t
  | LastError k => every_path who le (k le) Q t
  end.

(** [p] only logs to the console and only calls the offscreen document
    management of the platform. *)
Fixpoint lifecycle_only {A : Type} (p : prog A) : Prop :=
  match p with
  | Ret _ | Throw _ => True
  | Emit ev k => (match ev with Console _ _ => True | _ => False end) /\ lifecycle_only k
  | Tick k => lifecycle_only k
  | Call c k =>
      (match c with GetContexts | CloseDocument => True | _ => False end)
      /\ forall s, lifecycle_only (k s)
  | CreateDocument k => forall n, lifecycle_only (k n)
  | AwaitPromise _ k => forall s, lifecycle_only (k s)
  | ReadMarker k => forall m, lifecycle_only (k m)
  | WriteMarker _ k => lifecycle_only k
  | LastError k => forall v, lifecycle_only (k v)
  end.

(** On every path [p] asks the platform for at most [n] free decisions, and
    awaits no kept promise. *)
Fixpoint decisions {A : Type} (n : nat) (p : prog A) : Prop :=
  match p with
  | Ret _ | Throw _ => True
  | Emit _ k | Tick k | WriteMarker _ k => decisions n k
  | Call c k =>
      match c with
      | GetContexts | CloseDocument => forall s, decisions n (k s)
      | CaptureVisibleTab _ | SendMessage _ =>
          match n with
          | O => False
          | S m => forall s, decisions m (k s)
          end
      end
  | CreateDocument _ | AwaitPromise _ _ => False
  | ReadMarker k => forall m, decisions n (k m)
  | LastError k => forall v, decisions n (k v)
  end.

(** *** Several invocations, interleaved

    An invocation runs until it is suspended. What resumes it is either a
    platform event (its call is answered, a creation is settled: a task of
    the event loop) or a job of the microtask queue (the tick after an
    [async] function, the reaction to a settled promise); a task starts only
    when no job is left. *)

Inductive thread : Type :=
| Waiting (p : prog unit)          (* the call has not been made yet *)
| Suspended (p : prog unit)        (* at [Tick], [Call] or [AwaitPromise] *)
| Finished (r : outcome unit).

Record pool : Type := mkPool { threads : list thread; world_of : world }.

(** The thread a run leaves: finished with its result, or suspended. *)
Definition left_by (o : outcome unit) (p' : prog unit) : thread :=
  match o with
  | Pending => Suspended p'
  | _ => Finished o
  end.

(** Runs the synchronous part of [p]. *)
Fixpoint advance (who : nat) (p : prog unit) (w : world) : thread * world :=
  match p with
  | Ret a => (Finished (Returned a), w)
  | Throw e => (Finished (Threw e), w)
  | Emit ev k => advance who k (add (Did who ev) w)
  | Tick k => (Suspended p, w)
  | Call c k => (Suspended p, add (Invoked who c) w)
  | CreateDocument k =>
      let n := List.length (promises w) in
      advance who (k n) (add (Creating who n) (set_promises (promises w ++ [None]) w))
  | AwaitPromise n k => (Suspended p, w)
  | ReadMarker k => advance who (k (marker w)) w
  | WriteMarker m k => advance who k (set_marker m w)
  | LastError k => advance who (k (lastError w)) w
  end.

Definition settled_promise (w : world) (n : nat) : option settled :=
  match nth_error (promises w) n with
  | Some (Some s) => Some s
  | _ => None
  end.

(** A job for the thread is queued. *)
Definition runnable (w : world) (t : thread) : bool :=
  match t with
  | Suspended (Tick _) => true
  | Suspended (AwaitPromise n _) => match settled_promise w n with Some _ => true | None => false end
  | _ => false
  end.

Definition quiet (s : pool) : bool := negb (existsb (runnable (world_of s)) (threads s)).

Inductive label : Type :=
| Start (i : nat)            (* task: invocation [i] is called *)
| Answer (i : nat)           (* task: the call invocation [i] awaits is answered *)
| SettleCreation (n : nat)   (* task: createDocument promise [n] is settled *)
| Resume (i : nat).          (* job: invocation [i] goes on *)

Definition continue (i : nat) (p : prog unit) (w : world) (s : pool) : option pool :=
  let (t, w') := advance i p w in
  Some (mkPool (update i t (threads s)) w').

Definition step (l : label) (s : pool) : option pool :=
  let w := world_of s in
  match l with
  | Start i =>
      match nth_error (threads s) i with
      | Some (Waiting p) => if quiet s then continue i p w s else None
      | _ => None
      end
  | Answer i =>
      match nth_error (threads s) i with
      | Some (Suspended (Call c k)) =>
          if quiet s then
            match answer c w with
            | Some (a, w') => continue i (k a) (add (Answered i c a) w') s
            | None => None
            end
          else None
      | _ => None
      end
  | SettleCreation n =>
      match nth_error (promises w) n with
      | Some None =>
          if quiet s then
            match settle_creation w with
            | Some (a, w') =>
                Some (mkPool (threads s) (set_promises (update n (Some a) (promises w')) w'))
            | None => None
            end
          else None
      | _ => None
      end
  | Resume i =>
      match nth_error (threads s) i with
      | Some (Suspended (Tick k)) => continue i k w s
      | Some (Suspended (AwaitPromise n k)) =>
          match settled_promise w n with
          | Some a => continue i (k a) (add (Awaited i n a) w) s
          | None => None
          end
      | _ => None
      end
  end.

Fixpoint exec (schedule : list label) (s : pool) : option pool :=
  match schedule with
  | [] => Some s
  | l :: rest => match step l s with Some s' => exec rest s' | None => None end
  end.

Definition reachable (s0 s : pool) : Prop := exists schedule, exec schedule s0 = Some s.

(** Every label that can be enabled in [s]. *)
Definition labels (s : pool) : list label :=
  (flat_map (fun i => [Start i; Answer i; Resume i]) (seq 0 (List.length (threads s)))
   ++ List.map SettleCreation (seq 0 (List.length (promises (world_of s)))))%list.

Definition successors (s : pool) : list pool :=
  flat_map (fun l => match step l s with Some s' => [s'] | None => [] end) (labels s).

(** No invocation can go on and no platform event is possible. *)
Definition terminal (s : pool) : bool :=
  match successors s with [] => true | _ => false end.

(** [check P n s]: [P] holds of [s] and of all states reached from it, and no
    run from [s] has more than [n] steps. *)
Fixpoint check (P : pool -> bool) (n : nat) (s : pool) : bool :=
  P s &&
  match n with
  | O => terminal s
  | S m => forallb (check P m) (successors s)
  end.

End Runtime.

(** ** What is observed of a run of the coordinator *)

Module Observe.
Import Async Runtime.

Definition effects_in (t : list entry) : list event :=
  flat_map (fun x => match x with Did _ ev => [ev] | _ => [] end) t.

(** The messages sent to the worker, and the replies that came back. *)
Definition sent_messages (t : list entry) : list value :=
  flat_map (fun x => match x with Invoked _ (SendMessage m) => [m] | _ => [] end) t.
Definition worker_replies (t : list entry) : list value :=
  flat_map (fun x => match x with Answered _ (SendMessage _) (Fulfilled r) => [r] | _ => [] end) t.

(** What a stretch of the log shows to the tab, the user and the worker. *)
Definition view (t : list entry) : list value * list (string * value) * list value * list value :=
  (replies (effects_in t), notifications (effects_in t), sent_messages t, worker_replies t).

Definition effects (w : world) : list event :=
  flat_map (fun x => match x with Did _ ev => [ev] | _ => [] end) (log w).





Definition threw (j : nat) (s : pool) : bool :=
  match nth_error (threads s) j with Some (Finished (Threw _)) => true | _ => false end.





(** The state before any call: [existing] tells whether an offscreen document
    is left from earlier; no creation is in flight. *)
Definition initial (existing : bool) (lastErr : value) (sc : list settled) : world :=
  mkWorld (if existing then Some O else None) 0 [] None lastErr sc [].

End Observe.

(** ** Vocabulary of the properties *)

(** A number format for the examples: decimal digits for an integer, which
    is what [Number::toString] gives there. *)
Definition sample_format : NumberFormat :=
  fun q => NilZero.string_of_int (Z.to_int (Qfloor q)).

#[local] Existing Instance sample_format.

(** The coordinates the worker is to refuse: a field that is not a number, or
    a width or height that is not positive. *)
Definition numeric (v : value) : Prop := exists q, v = VNum q.

Definition invalid_coords (coords : value) : Prop :=
  ~ numeric (get coords "x") \/ ~ numeric (get coords "y")
  \/ ~ numeric (get coords "width") \/ ~ numeric (get coords "height")
  \/ (exists w, get coords "width" = VNum w /\ w <= 0)
  \/ (exists h, get coords "height" = VNum h /\ h <= 0).

(** What the tab, the user and the worker see of the handling of a
    [captureArea] request. When it is over: one reply, one notification, and
    the worker's failure passed on. While it waits: no reply, no
    notification and no answer of the worker yet. Always: crop requests with
    the coordinates of the request. *)
Definition handled_view (le request : value)
           (vw : list value * list (string * value) * list value * list value)
           (o : Runtime.outcome unit) : Prop :=
  let '(rs, ns, ms, ws) := vw in
  Forall (fun m => exists dataUrl, m = Background.cropAndCopy_message dataUrl (get request "coords")) ms
  /\ match o with
     | Runtime.Returned _ =>
         (exists reply note, rs = [reply] /\ ns = [note])
         /\ (truthy le = false ->
             forall r, In r ws ->
             truthy (and_then r (get r "success")) = false ->
             let errorMsg := or_else (get r "error") (VStr Background.unknown_error_text) in
             rs = [VObj [("success", VBool false); ("error", errorMsg)]]
             /\ ns = [("Screenshot Failed", errorMsg)])
     | Runtime.Threw _ => False
     | Runtime.Pending => rs = [] /\ ns = [] /\ ws = []
     end.

Definition handled (le request : value) (t : list Runtime.entry) (o : Runtime.outcome unit) : Prop :=
  handled_view le request (Observe.view t) o.

(** Two calls of [setupOffscreenDocumentForClipboard], not yet made. *)
Definition two_calls {NF : NumberFormat} (v : Background.variant) (e : Background.env)
           (w : Runtime.world) : Runtime.pool :=
  Runtime.mkPool [Runtime.Waiting (Background.setupOffscreenDocumentForClipboard v e);
                  Runtime.Waiting (Background.setupOffscreenDocumentForClipboard v e)] w.



(** *** Sample inputs *)

Definition sample_url : string := "data:image/png;base64,iVBORw0KGgo=".

(** A worker document in which a 20 x 20 image loads and everything works. *)
Definition sample_host : Offscreen.host :=
  Offscreen.mkHost (fun _ => Some (Offscreen.mkImage 20 20)) None (Some (100%N, "image/png")) true None.

(** A browser with the whole API. *)
Definition sample_env : Background.env := Background.mkEnv true true.

(** Two calls that overlap, no document existing before and the platform
    letting every creation succeed. In [overlapping_schedule] the second
    call is made while the first is still checking for a document, and
    reaches its guard after the first has called [createDocument]. In
    [called_in_flight] the second call is made while the creation of the
    first is in flight; in [overtaking_schedule] that creation is over before
    the second call has got the answer to its check for a document. *)
Definition follow (schedule : list Runtime.label) (s : Runtime.pool) : Runtime.pool :=
  match Runtime.exec schedule s with
  | Some s' => s'
  | None => s
  end.

Definition overlapping_schedule : list Runtime.label :=
  [Runtime.Start 0; Runtime.Start 1;
   Runtime.Answer 0; Runtime.Resume 0; Runtime.Resume 0;
   Runtime.Answer 1; Runtime.Resume 1; Runtime.Resume 1;
   Runtime.SettleCreation 0; Runtime.Resume 0; Runtime.Resume 1].

Definition overlapped : Runtime.pool :=
  follow overlapping_schedule
         (two_calls Background.V1 sample_env (Observe.initial false VUndefined [Fulfilled VUndefined])).





(** A tab as sender, and the request of the overlay for the region
    (10, 10, 100, 50) at device pixel ratio 2. *)
Definition sample_sender : value :=
  VObj [("tab", VObj [("id", num 7); ("windowId", num 1)])].

Definition sample_request : value := Overlay.captureArea_message 10 10 100 50 2.

(** The platform lets the creation succeed, captures an image, and the
    worker answers [reply]. *)
Definition sample_world (reply : value) : Runtime.world :=
  Observe.initial false VUndefined [Fulfilled VUndefined; Fulfilled (VStr sample_url); Fulfilled reply].

(** A service worker in which the legacy pipeline works, and one in which
    the background-removal service refuses. *)
Definition legacy_host : LegacyBackground.host :=
  LegacyBackground.mkHost true (Some (mkBlob 100 "image/png" 100 50))
                          (Some (mkBlob 90 "image/png" 100 50)) None.

Definition legacy_host_refused : LegacyBackground.host :=
  LegacyBackground.mkHost true (Some (mkBlob 100 "image/png" 100 50)) None None.

(** The overlay of [content_script.js] after the button went down at
    (10, 10), and the overlay of [content.js] after a press at (5, 5). *)
Definition sample_dragging : Overlay.state :=
  Overlay.mousedown (Overlay.mkMouse 10 10)
                    (Overlay.mkState true true true true 0 0 false (0, 0, 0, 0)).

Definition legacy_pressed : LegacyOverlay.state :=
  LegacyOverlay.onMouseDown (LegacyOverlay.mkMouse 5 5)
                            (LegacyOverlay.mkState true None 0 0 false false).

Definition crop_request (x y width height : Q) : value :=
  VObj [("target", VStr "offscreen"); ("action", VStr "cropAndCopy");
        ("dataUrl", VStr sample_url);
        ("coords", VObj [("x", VNum x); ("y", VNum y); ("width", VNum width); ("height", VNum height)])].

(** ** Vocabulary of the further properties *)

(** *** The worker *)

(** The fields of a request that passes the worker's checks of lines 85-94. *)
Definition crop_data (request : value) (url : string) (x y width height : Q) : Prop :=
  get request "dataUrl" = VStr url
  /\ prefix "data:image/" url = true
  /\ get (get request "coords") "x" = VNum x
  /\ get (get request "coords") "y" = VNum y
  /\ get (get request "coords") "width" = VNum width
  /\ get (get request "coords") "height" = VNum height
  /\ 0 < width /\ 0 < height.

Definition clipboard_writes (t : list event) : list (string * blob) :=
  flat_map (fun e => match e with ClipboardWrite ty b => [(ty, b)] | _ => [] end) t.

(** Focus requests and clipboard writes, in order. *)
Definition focus_and_copy (t : list event) : list event :=
  filter (fun e => match e with Focus | ClipboardWrite _ _ => true | _ => false end) t.

(** The text of the worker's failure reply for an exception, line 131. *)
Definition error_text (e : error) : string :=
  "Offscreen: " ++ (if err_name e =? "" then "Error" else err_name e) ++ " - "
  ++ (if err_message e =? "" then "Unknown error" else err_message e).

(** What is looked at of the worker's effects. *)
Definition observe (t : list event) : list value * list (string * blob) * list event * list string :=
  (replies t, clipboard_writes t, focus_and_copy t, warnings t).


(** *** The coordinator *)

(** The answers the platform gave to the capture and to the crop request. *)
Definition capture_answers (t : list Runtime.entry) : list settled :=
  flat_map (fun x => match x with
                     | Runtime.Answered _ (Async.CaptureVisibleTab _) a => [a]
                     | _ => []
                     end) t.
Definition message_answers (t : list Runtime.entry) : list settled :=
  flat_map (fun x => match x with
                     | Runtime.Answered _ (Async.SendMessage _) a => [a]
                     | _ => []
                     end) t.

Definition story (t : list Runtime.entry)
  : list value * list (string * value) * list value * list settled * list settled :=
  (replies (Observe.effects_in t), notifications (Observe.effects_in t), Observe.sent_messages t,
   capture_answers t, message_answers t).

(** The reply and the notification of the [catch] of lines 156-164 for the
    exception [err]. *)
Definition error_report (err : error) (rs : list value) (ns : list (string * value)) : Prop :=
  rs = [failure_reply ("Background: " ++ Background.message_or_default err)]
  /\ ns = [("Screenshot Error", VStr (Background.message_or_default err))].

Section Explained.
Context {NF : NumberFormat}.

(** The reply and the notification of a handling, by what the platform has
    answered: the capture and the crop request not answered yet, refused, or
    answered. *)
Definition explained (le request : value) (t : list Runtime.entry) (o : Runtime.outcome unit) : Prop :=
  let '(rs, ns, ms, cs, ws) := story t in
  match o with
  | Runtime.Returned _ =>
      match cs with
      | [] => ms = [] /\ ws = [] /\ exists err, error_report err rs ns
      | [Rejected err] => ms = [] /\ ws = [] /\ error_report err rs ns
      | [Fulfilled dataUrl] =>
          if truthy le || negb (truthy dataUrl) then
            ms = [] /\ ws = []
            /\ error_report
                 (Error ("Failed to capture tab: "
                         ++ to_string (or_else (get le "message") (VStr "No dataUrl received"))))
                 rs ns
          else
            ms = [Background.cropAndCopy_message dataUrl (get request "coords")]
            /\ match ws with
               | [Rejected err] => error_report err rs ns
               | [Fulfilled r] =>
                   if truthy (and_then r (get r "success")) then
                     rs = [success_reply]
                     /\ ns = [("Screenshot Copied!",
                               VStr "The selected area has been copied to your clipboard.")]
                   else
                     let errorMsg := or_else (get r "error") (VStr Background.unknown_error_text) in
                     rs = [VObj [("success", VBool false); ("error", errorMsg)]]
                     /\ ns = [("Screenshot Failed", errorMsg)]
               | _ => False
               end
      | _ => False
      end
  | Runtime.Threw _ => False
  | Runtime.Pending =>
      rs = [] /\ ns = [] /\ ws = []
      /\ match cs with
         | [] => True
         | [Fulfilled dataUrl] => truthy le || negb (truthy dataUrl) = false
         | _ => False
         end
  end.

End Explained.


(** *** Interleaved invocations *)

Definition who_of (x : Runtime.entry) : nat :=
  match x with
  | Runtime.Did i _ | Runtime.Invoked i _ | Runtime.Answered i _ _
  | Runtime.Creating i _ | Runtime.Awaited i _ _ => i
  end.

(** The entries of invocation [i]. *)
Definition own (i : nat) (t : list Runtime.entry) : list Runtime.entry :=
  filter (fun x => Nat.eqb (who_of x) i) t.

(** A suspended invocation that has logged [t] goes on along paths that
    satisfy [Q]; so for a thread of a pool, and for all its threads. *)
Definition resumable {A : Type} (who : nat) (le : value) (p : Async.prog A)
           (Q : list Runtime.entry -> Runtime.outcome A -> Prop) (t : list Runtime.entry) : Prop :=
  match p with
  | Async.Tick k => Runtime.every_path who le k Q t
  | Async.Call c k => forall s, Runtime.every_path who le (k s) Q (t ++ [Runtime.Answered who c s])
  | Async.AwaitPromise n k =>
      forall s, Runtime.every_path who le (k s) Q (t ++ [Runtime.Awaited who n s])
  | _ => True
  end.

Definition on_path (who : nat) (le : value)
           (Q : list Runtime.entry -> Runtime.outcome unit -> Prop)
           (th : Runtime.thread) (t : list Runtime.entry) : Prop :=
  match th with
  | Runtime.Waiting p => Runtime.every_path who le p Q t
  | Runtime.Suspended p => resumable who le p Q t
  | Runtime.Finished o => o <> Runtime.Pending /\ Q t o
  end.

Definition all_on_path (le : value)
           (Q : nat -> list Runtime.entry -> Runtime.outcome unit -> Prop) (s : Runtime.pool) : Prop :=
  Runtime.lastError (Runtime.world_of s) = le
  /\ forall i th, nth_error (Runtime.threads s) i = Some th ->
                  on_path i le (Q i) th (own i (Runtime.log (Runtime.world_of s))).

(** Handlings of [captureArea] requests, one per request and sender, not
    yet started. *)
Definition handlings {NF : NumberFormat} (v : Background.variant) (e : Background.env)
           (requests : list (value * value)) (w : Runtime.world) : Runtime.pool :=
  Runtime.mkPool
    (List.map (fun rs => Runtime.Waiting (Background.captureArea v e (fst rs) (snd rs))) requests) w.


Definition all_finished (s : Runtime.pool) : bool :=
  forallb (fun t => match t with Runtime.Finished _ => true | _ => false end) (Runtime.threads s).


(** [creatingOffscreenPromise] is [null] once every call is over. *)
Definition marker_cleared (s : Runtime.pool) : bool :=
  implb (all_finished s)
        (match Runtime.marker (Runtime.world_of s) with None => true | Some _ => false end).

(** *** Further samples *)

(** A worker document whose clipboard refuses the write, and one in which no
    image loads. *)
Definition denying_host : Offscreen.host :=
  Offscreen.mkHost (fun _ => Some (Offscreen.mkImage 20 20)) None (Some (100%N, "image/png")) true
                   (Some (mkError "NotAllowedError" "Document is not focused.")).

Definition blind_host : Offscreen.host :=
  Offscreen.mkHost (fun _ => None) None None true None.

(** A crop request with the address of an image instead of its data. *)
Definition remote_request : value :=
  VObj [("target", VStr "offscreen"); ("action", VStr "cropAndCopy");
        ("dataUrl", VStr "https://example.org/a.png");
        ("coords", VObj [("x", VNum 0); ("y", VNum 0); ("width", VNum 10); ("height", VNum 10)])].

(** The platform refuses the capture; the worker's document is gone when the
    crop request is sent. *)
Definition capture_refused : Runtime.world :=
  Observe.initial false VUndefined
    [Fulfilled VUndefined; Rejected (Error "Cannot access contents of the page.")].

Definition channel_closed : Runtime.world :=
  Observe.initial false VUndefined
    [Fulfilled VUndefined; Fulfilled (VStr sample_url);
     Rejected (Error "Could not establish connection. Receiving end does not exist.")].

(** Two handlings of the sample request; in [first_handled] the second has
    been started and the first is over. *)
Definition two_handlings : Runtime.pool :=
  handlings Background.V1 sample_env
            [(sample_request, sample_sender); (sample_request, sample_sender)]
            (sample_world success_reply).

Definition first_handling_schedule : list Runtime.label :=
  [Runtime.Start 0; Runtime.Start 1; Runtime.Answer 0; Runtime.Resume 0; Runtime.Resume 0;
   Runtime.SettleCreation 0; Runtime.Resume 0; Runtime.Resume 0; Runtime.Answer 0; Runtime.Answer 0].

Definition first_handled : Runtime.pool := follow first_handling_schedule two_handlings.

(** The overlay after a drag from (10, 10) to (110, 60). *)
Definition sample_selected : Overlay.state :=
  fst (Overlay.mouseup 2 (Overlay.mkMouse 110 60) sample_dragging).

(** * Properties *)

Lemma is_string_spec (v : value) (s : string) : is_string v s = true <-> v = VStr s.
Proof.
  destruct v; simpl; split; intro H; try discriminate.
  - apply String.eqb_eq in H. now subst.
  - injection H as ->. apply String.eqb_refl.
Qed.

Lemma is_string_false (v : value) (s : string) : v <> VStr s -> is_string v s = false.
Proof.
  intro H. destruct (is_string v s) eqn:E; [|reflexivity].
  apply is_string_spec in E. contradiction.
Qed.

Lemma typeof_number (v : value) : (typeof v =? "number") = true <-> exists q, v = VNum q.
Proof.
  destruct v; simpl; split; intro H; try discriminate; try (destruct H as [q H]; discriminate).
  - now exists q.
  - reflexivity.
Qed.

(** ** The worker's listener *)

Section WorkerProperties.
Context {NF : NumberFormat}.
Variable h : Offscreen.host.

(** C10. A message whose [target] is not ['offscreen'] gets no reply from
    the worker (the listener returns [false] and starts nothing); a message
    for the worker whose [action] is not ['cropAndCopy'] gets the single reply
    [{success: false, error: "Offscreen: Unknown action '<action>'"}]. *)
Theorem worker_ignores_or_rejects (request : value) :
  (get request "target" <> VStr "offscreen" ->
   replies (fst (Offscreen.onMessage h request)) = []
   /\ snd (Offscreen.onMessage h request) = false)
  /\
  (get request "target" = VStr "offscreen" ->
   get request "action" <> VStr "cropAndCopy" ->
   replies (fst (Offscreen.onMessage h request))
   = [failure_reply ("Offscreen: Unknown action '" ++ to_string (get request "action") ++ "'")]
   /\ snd (Offscreen.onMessage h request) = false).
Proof.
  unfold Offscreen.onMessage. split.
  - intro Ht. rewrite (is_string_false _ _ Ht). simpl. auto.
  - intros Ht Ha. rewrite Ht. simpl.
    rewrite (is_string_false _ _ Ha). simpl. auto.
Qed.

Lemma not_numeric (v : value) : ~ numeric v -> (typeof v =? "number") = false.
Proof.
  intro H. destruct (typeof v =? "number") eqn:E; [|reflexivity].
  apply typeof_number in E. contradiction.
Qed.

(** C7. A [cropAndCopy] request whose coordinates are invalid gets the single
    reply [{success: false, error}], where [error] says what is wrong (the
    image URL, checked first, the coordinates, or the dimensions); nothing is
    drawn, encoded or written to the clipboard. *)
Theorem worker_rejects_invalid_coords (request : value) :
  get request "target" = VStr "offscreen" ->
  get request "action" = VStr "cropAndCopy" ->
  invalid_coords (get request "coords") ->
  exists reason,
    replies (fst (Offscreen.onMessage h request)) = [failure_reply ("Offscreen: Error - " ++ reason)]
    /\ (reason = "Invalid or missing dataUrl."
        \/ reason = "Invalid or missing coordinates."
        \/ reason = "Crop dimensions are invalid (width: "
                     ++ number_to_string (Offscreen.number_of (get (get request "coords") "width"))
                     ++ ", height: "
                     ++ number_to_string (Offscreen.number_of (get (get request "coords") "height"))
                     ++ "). Must be positive.")
    /\ existsb touches_canvas (fst (Offscreen.onMessage h request)) = false.
Proof.
  intros Ht Ha Hbad. unfold Offscreen.onMessage. rewrite Ht, Ha. simpl.
  unfold Offscreen.cropAndCopy.
  set (coords := get request "coords") in *.
  destruct (negb (truthy (get request "dataUrl"))
            || negb (typeof (get request "dataUrl") =? "string")
            || negb (Offscreen.starts_with (get request "dataUrl") "data:image/")) eqn:Eurl.
  { exists "Invalid or missing dataUrl.". simpl. auto. }
  destruct (negb (truthy coords)
            || negb (typeof (get coords "x") =? "number")
            || negb (typeof (get coords "y") =? "number")
            || negb (typeof (get coords "width") =? "number")
            || negb (typeof (get coords "height") =? "number")) eqn:Ecoords.
  { exists "Invalid or missing coordinates.". simpl. auto. }
  assert (Hdims : Qle_bool (Offscreen.number_of (get coords "width")) 0
                  || Qle_bool (Offscreen.number_of (get coords "height")) 0 = true).
  { repeat (apply orb_false_elim in Ecoords; destruct Ecoords as [Ecoords ?]).
    destruct Hbad as [H'|[H'|[H'|[H'|[H'|H']]]]];
      try (apply not_numeric in H'; rewrite H' in *; discriminate).
    - destruct H' as [w [-> Hw]]. simpl. apply Qle_bool_iff in Hw. now rewrite Hw.
    - destruct H' as [w [-> Hw]]. simpl. apply Qle_bool_iff in Hw. rewrite Hw. apply orb_true_r. }
  rewrite Hdims.
  eexists. simpl. split; [reflexivity|]. auto.
Qed.

(** C8, as amended. When the image loads and is drawn and encoded,
    [cropImage] yields a Blob of a raster of [max(1, round(width))] by
    [max(1, round(height))] pixels, both at least 1, drawn from the source
    rectangle of that size at [(round(x), round(y))]. The out-of-bounds
    warning is logged exactly when that rectangle starts at a negative
    coordinate or passes the right or bottom edge of the image by more than
    5 pixels; it is never a failure. *)
Theorem crop_raster_size (dataUrl : string) (x y width height : Q)
        (img : Offscreen.image) (size : N) (type : string) :
  dataUrl <> "" ->
  prefix "data:image/" dataUrl = true ->
  Offscreen.load_image h dataUrl = Some img ->
  Offscreen.draw_image h = None ->
  Offscreen.to_blob h = Some (size, type) ->
  let rw := Z.max 1 (Math_round width) in
  let rh := Z.max 1 (Math_round height) in
  let sx := Math_round x in
  let sy := Math_round y in
  exists t,
    Offscreen.cropImage h dataUrl x y width height = (t, inl (mkBlob size type rw rh))
    /\ (1 <= rw)%Z /\ (1 <= rh)%Z
    /\ In (DrawImage sx sy rw rh rw rh) t
    /\ In (ToBlob rw rh) t
    /\ (In (Console Warn (Offscreen.outside_warning sx sy rw rh img)) t
        <-> (sx < 0 \/ sy < 0
             \/ sx + rw > Offscreen.img_width img + 5
             \/ sy + rh > Offscreen.img_height img + 5)%Z).
Proof.
  intros Hne Hpre Hload Hdraw Hblob rw rh sx sy.
  unfold Offscreen.cropImage.
  assert (Hempty : (dataUrl =? "") = false) by (now apply String.eqb_neq).
  rewrite Hempty, Hpre, Hload, Hdraw, Hblob. simpl.
  fold rw rh sx sy.
  assert (Hrw : (1 <= rw)%Z) by (unfold rw; lia).
  assert (Hrh : (1 <= rh)%Z) by (unfold rh; lia).
  assert (Hpos : (rw <=? 0)%Z || (rh <=? 0)%Z = false).
  { apply orb_false_intro; apply Z.leb_gt; lia. }
  rewrite Hpos. simpl.
  destruct ((sx <? 0)%Z || (sy <? 0)%Z
            || (sx + rw >? Offscreen.img_width img + 5)%Z
            || (sy + rh >? Offscreen.img_height img + 5)%Z) eqn:Eout;
    destruct (0 <? size)%N; simpl; eexists; (split; [reflexivity|]);
    repeat split; auto; simpl; try tauto.
  all: rewrite ?Z.gtb_ltb in Eout.
  all: try (intros _;
            repeat (apply orb_true_elim in Eout; destruct Eout as [Eout|Eout]);
            apply Z.ltb_lt in Eout; lia).
  all: try (intro H'; exfalso; unfold Offscreen.outside_warning in H'; simpl in H';
            repeat (destruct H' as [H'|H']; [discriminate H'|]); exact H').
  all: intro H'; repeat (apply orb_false_elim in Eout; destruct Eout as [Eout ?]);
    repeat match goal with E : (_ <? _)%Z = false |- _ => apply Z.ltb_ge in E end; lia.
Qed.

End WorkerProperties.

Lemma worker_ignores_or_rejects_witness :
  (replies (fst (Offscreen.onMessage sample_host
                   (VObj [("target", VStr "popup"); ("action", VStr "cropAndCopy")]))) = []
   /\ snd (Offscreen.onMessage sample_host
             (VObj [("target", VStr "popup"); ("action", VStr "cropAndCopy")])) = false)
  /\
  (replies (fst (Offscreen.onMessage sample_host
                   (VObj [("target", VStr "offscreen"); ("action", VStr "resize")])))
   = [failure_reply "Offscreen: Unknown action 'resize'"]
   /\ snd (Offscreen.onMessage sample_host
             (VObj [("target", VStr "offscreen"); ("action", VStr "resize")])) = false).
Proof.
  split.
  - apply (proj1 (worker_ignores_or_rejects sample_host
                    (VObj [("target", VStr "popup"); ("action", VStr "cropAndCopy")]))).
    simpl. discriminate.
  - apply (proj2 (worker_ignores_or_rejects sample_host
                    (VObj [("target", VStr "offscreen"); ("action", VStr "resize")]))).
    + reflexivity.
    + simpl. discriminate.
Defined.

Lemma worker_rejects_invalid_coords_witness :
  exists reason,
    replies (fst (Offscreen.onMessage sample_host (crop_request 0 0 0 10)))
    = [failure_reply ("Offscreen: Error - " ++ reason)]
    /\ (reason = "Invalid or missing dataUrl."
        \/ reason = "Invalid or missing coordinates."
        \/ reason = "Crop dimensions are invalid (width: 0, height: 10). Must be positive.")
    /\ existsb touches_canvas (fst (Offscreen.onMessage sample_host (crop_request 0 0 0 10))) = false.
Proof.
  refine (worker_rejects_invalid_coords sample_host (crop_request 0 0 0 10) eq_refl eq_refl _).
  right. right. right. right. left. exists 0. split; [reflexivity | apply Qle_refl].
Defined.


(** ** Paths through asynchronous code *)

Section Paths.
Import Async Runtime Observe.
Context {A : Type}.
Variable who : nat.
Variable le : value.

Lemma every_path_weaken (p : prog A) (Q Q' : list entry -> outcome A -> Prop) :
  (forall t o, Q t o -> Q' t o) ->
  forall t, every_path who le p Q t -> every_path who le p Q' t.
Proof.
  intro HQ. induction p; simpl; intros t Hp; auto.
  - destruct Hp; split; auto.
  - destruct Hp; split; auto.
Qed.

Lemma view_app (t d : list entry) :
  view (t ++ d)
  = (replies (effects_in t) ++ replies (effects_in d),
     notifications (effects_in t) ++ notifications (effects_in d),
     sent_messages t ++ sent_messages d,
     worker_replies t ++ worker_replies d)%list.
Proof.
  unfold view, effects_in, sent_messages, worker_replies, replies, notifications.
  now rewrite !flat_map_app.
Qed.

Lemma view_silent (t d : list entry) : view d = ([], [], [], []) -> view (t ++ d) = view t.
Proof.
  intro Hd. rewrite view_app. unfold view in Hd. injection Hd as -> -> -> ->.
  now rewrite !app_nil_r.
Qed.

Lemma lifecycle_silent (p : prog A) :
  lifecycle_only p ->
  forall t, every_path who le p (fun t' _ => view t' = view t) t.
Proof.
  induction p; simpl; intros Hl t; try reflexivity.
  - destruct Hl as [Hev Hl]. destruct ev; try contradiction.
    eapply every_path_weaken; [|apply IHp; exact Hl].
    intros t' o ->. now apply view_silent.
  - auto.
  - destruct Hl as [Hc Hl].
    split; [apply view_silent; destruct c; try contradiction; reflexivity|]. intro s.
    eapply every_path_weaken; [|apply H; apply Hl].
    intros t' o ->. apply view_silent. destruct c; try contradiction; reflexivity.
  - intro n. eapply every_path_weaken; [|apply H; apply Hl].
    intros t' o ->. now apply view_silent.
  - split; [reflexivity|]. intro s. eapply every_path_weaken; [|apply H; apply Hl].
    intros t' o ->. now apply view_silent.
  - intro m. apply H, Hl.
  - auto.
  - apply H, Hl.
Qed.

Lemma answer_keeps (c : call) (w w' : world) (a : settled) :
  answer c w = Some (a, w') -> log w' = log w /\ lastError w' = lastError w.
Proof.
  destruct c; simpl.
  - intros [= _ <-]. auto.
  - destruct (doc w); intros [= _ <-]; auto.
  - destruct (script w); intros [= _ <-]; auto.
  - destruct (script w); intros [= _ <-]; auto.
Qed.

Lemma settle_creation_keeps (w w' : world) (a : settled) :
  settle_creation w = Some (a, w') -> log w' = log w /\ lastError w' = lastError w.
Proof.
  unfold settle_creation. destruct (doc w).
  - intros [= _ <-]. auto.
  - destruct (script w) as [|[x|x] rest]; [discriminate| |]; intros [= _ <-]; auto.
Qed.

(** A run follows one of the paths. *)
Lemma run_every_path (p : prog A) (Q : list entry -> outcome A -> Prop) :
  forall t w,
    every_path who (lastError w) p Q t ->
    exists d,
      log (snd (run who p w)) = (log w ++ d)%list
      /\ Q (t ++ d)%list (fst (run who p w)).
Proof.
  induction p; simpl; intros t w Hp.
  - exists []. rewrite !app_nil_r. auto.
  - exists []. rewrite !app_nil_r. auto.
  - destruct (IHp _ (add (Did who ev) w) Hp) as [d [Hlog HQ]].
    exists (Did who ev :: d). simpl in Hlog. rewrite <- app_assoc in Hlog, HQ. auto.
  - apply IHp, Hp.
  - destruct Hp as [Hwait Hp].
    destruct (answer c (add (Invoked who c) w)) as [[a w2]|] eqn:Ea.
    + apply answer_keeps in Ea. destruct Ea as [Hl2 He2]. simpl in Hl2, He2.
      destruct (H a (t ++ [Invoked who c; Answered who c a])%list (add (Answered who c a) w2))
        as [d [Hlog HQ]].
      { simpl. rewrite He2. apply Hp. }
      exists (Invoked who c :: Answered who c a :: d).
      simpl in Hlog. rewrite Hl2 in Hlog. rewrite <- !app_assoc in Hlog. rewrite <- app_assoc in HQ.
      auto.
    + exists [Invoked who c]. simpl. auto.
  - match goal with
    | |- context [run who (k ?n) ?w'] =>
        destruct (H n (t ++ [Creating who n])%list w' (Hp n)) as [d [Hlog HQ]];
        exists (Creating who n :: d)
    end.
    simpl in Hlog. rewrite <- app_assoc in Hlog, HQ. auto.
  - destruct Hp as [Hwait Hp].
    destruct (nth_error (promises w) p) as [[a|]|].
    + destruct (H a (t ++ [Awaited who p a])%list (add (Awaited who p a) w) (Hp a)) as [d [Hlog HQ]].
      exists (Awaited who p a :: d). simpl in Hlog. rewrite <- app_assoc in Hlog, HQ. auto.
    + destruct (settle_creation w) as [[a w1]|] eqn:Es.
      * apply settle_creation_keeps in Es. destruct Es as [Hl1 He1].
        match goal with
        | |- context [run who (k a) ?w'] =>
            destruct (H a (t ++ [Awaited who p a])%list w') as [d [Hlog HQ]]
        end.
        { simpl. rewrite He1. apply Hp. }
        exists (Awaited who p a :: d). simpl in Hlog. rewrite Hl1 in Hlog.
        rewrite <- app_assoc in Hlog, HQ. auto.
      * exists []. rewrite !app_nil_r. simpl. auto.
    + exists []. rewrite !app_nil_r. simpl. auto.
  - apply H, Hp.
  - apply (IHp t (set_marker m w)), Hp.
  - apply H, Hp.
Qed.

(** With enough decisions left in the script, such a program ends. *)
Lemma decisions_run (p : prog A) :
  forall n w, decisions n p -> (n <= List.length (script w))%nat -> fst (run who p w) <> Pending.
Proof.
  induction p; simpl; intros n w Hd Hn; try discriminate; try contradiction.
  - apply (IHp n); auto.
  - apply (IHp n); auto.
  - destruct c; simpl.
    + apply (H _ n); auto.
    + destruct (doc w); simpl; apply (H _ n); auto.
    + destruct n as [|m]; [contradiction|].
      destruct (script w) as [|a rest] eqn:Es; simpl in Hn; [lia|].
      apply (H _ m); auto. simpl. lia.
    + destruct n as [|m]; [contradiction|].
      destruct (script w) as [|a rest] eqn:Es; simpl in Hn; [lia|].
      apply (H _ m); auto. simpl. lia.
  - apply (H _ n); auto.
  - apply (IHp n); auto.
  - apply (H _ n); auto.
Qed.

End Paths.

Section PathsOfCases.
Import Async Runtime Observe.
Context {A B : Type}.
Variable who : nat.
Variable le : value.

Lemma every_path_cases (p : prog A) (f : A -> prog B) (g : error -> prog B)
      (Q : list entry -> outcome B -> Prop) :
  forall t,
    every_path who le p
      (fun t' o => match o with
                   | Returned a => every_path who le (f a) Q t'
                   | Threw e => every_path who le (g e) Q t'
                   | Pending => Q t' Pending
                   end) t ->
    every_path who le (cases p f g) Q t.
Proof.
  induction p; simpl; intros t Hp; auto.
  - destruct Hp; split; auto.
  - destruct Hp; split; auto.
Qed.

Lemma lifecycle_cases (p : prog A) (f : A -> prog B) (g : error -> prog B) :
  lifecycle_only p ->
  (forall a, lifecycle_only (f a)) ->
  (forall e, lifecycle_only (g e)) ->
  lifecycle_only (cases p f g).
Proof.
  intros Hp Hf Hg. induction p; simpl in *; auto.
  - destruct Hp. split; auto.
  - destruct Hp. split; auto.
Qed.

(** A run of [cases p f g] is a run of [p] followed by one of [f] or [g]. *)
Lemma run_cases (p : prog A) (f : A -> prog B) (g : error -> prog B) :
  forall w,
    run who (cases p f g) w
    = match run who p w with
      | (Returned a, w1) => run who (f a) w1
      | (Threw e, w1) => run who (g e) w1
      | (Pending, w1) => (Pending, w1)
      end.
Proof.
  induction p; simpl; intro w; auto.
  - destruct (answer c (add (Invoked who c) w)) as [[a w2]|]; auto.
  - destruct (nth_error (promises w) p) as [[a|]|]; auto.
    destruct (settle_creation w) as [[a w1]|]; auto.
Qed.

End PathsOfCases.

(** ** The overlays *)

(** The overlay of [content_script.js] sends nothing for a region without
    area, and removes itself. *)
Lemma overlay_discards_empty_region (dpr : Q) (ev : Overlay.mouse_event) (st : Overlay.state)
      (x y width height : Q) :
  Overlay.isDragging st = true ->
  Overlay.region st ev = (x, y, width, height) ->
  width <= 0 \/ height <= 0 ->
  snd (Overlay.mouseup dpr ev st) = []
  /\ Overlay.active (fst (Overlay.mouseup dpr ev st)) = false
  /\ Overlay.attached (fst (Overlay.mouseup dpr ev st)) = false
  /\ Overlay.esc_listener (fst (Overlay.mouseup dpr ev st)) = false.
Proof.
  intros Hdrag Hregion Hempty. unfold Overlay.mouseup. rewrite Hdrag, Hregion. simpl.
  assert (Hguard : negb (Qle_bool width 0) && negb (Qle_bool height 0) = false).
  { destruct Hempty as [H|H]; apply Qle_bool_iff in H; rewrite H; simpl; auto.
    apply andb_false_r. }
  rewrite Hguard. simpl. auto.
Qed.

(** C3 (the code of [content.js]). The overlay of [content.js] sends the
    [areaSelected] message for a region of width 0 and height 0: after a
    press at (5, 5), releasing the button while the bounding rectangle of
    the selection box is empty sends the message with that rectangle. *)
Theorem legacy_overlay_sends_empty_region :
  snd (LegacyOverlay.onMouseUp 1 (LegacyOverlay.mkRect 5 5 0 0) legacy_pressed)
  = [Send (VObj [("type", VStr "areaSelected");
                 ("rect", VObj [("x", VNum 5); ("y", VNum 5); ("width", VNum 0); ("height", VNum 0)]);
                 ("dpr", VNum 1)])].
Proof.
  reflexivity.
Qed.

(** ** Interleaved invocations *)

Section Interleavings.
Import Async Runtime Observe.

Lemma step_in_labels (l : label) (s s' : pool) : step l s = Some s' -> In l (labels s).
Proof.
  unfold labels. intro Hstep. apply in_or_app.
  destruct l as [i|i|n|i]; simpl in Hstep.
  - left. apply in_flat_map. exists i. split; [|simpl; auto].
    apply in_seq. split; [lia|]. simpl. apply nth_error_Some.
    destruct (nth_error (threads s) i); discriminate.
  - left. apply in_flat_map. exists i. split; [|simpl; auto].
    apply in_seq. split; [lia|]. simpl. apply nth_error_Some.
    destruct (nth_error (threads s) i); discriminate.
  - right. apply in_map. apply in_seq. split; [lia|]. simpl. apply nth_error_Some.
    destruct (nth_error (promises (world_of s)) n); discriminate.
  - left. apply in_flat_map. exists i. split; [|simpl; auto].
    apply in_seq. split; [lia|]. simpl. apply nth_error_Some.
    destruct (nth_error (threads s) i); discriminate.
Qed.

Lemma step_in_successors (l : label) (s s' : pool) : step l s = Some s' -> In s' (successors s).
Proof.
  intro Hstep. unfold successors. apply in_flat_map. exists l.
  split; [eapply step_in_labels; eauto|]. rewrite Hstep. simpl. auto.
Qed.

(** What [check] establishes holds along every schedule. *)
Lemma check_sound (P : pool -> bool) :
  forall schedule n s s',
    check P n s = true -> exec schedule s = Some s' ->
    P s' = true /\ (List.length schedule <= n)%nat.
Proof.
  induction schedule as [|l rest IH]; simpl; intros n s s' Hc He.
  - injection He as <-. split; [|lia].
    destruct n; simpl in Hc; apply andb_prop in Hc; tauto.
  - destruct (step l s) as [s1|] eqn:Hstep; [|discriminate].
    apply step_in_successors in Hstep.
    destruct n as [|m]; simpl in Hc; apply andb_prop in Hc; destruct Hc as [_ Hc].
    + unfold terminal in Hc. destruct (successors s); [contradiction|discriminate].
    + rewrite forallb_forall in Hc. specialize (Hc s1 Hstep).
      destruct (IH m s1 s' Hc He). split; [assumption|lia].
Qed.

Lemma nth_error_update {X : Type} (l : list X) :
  forall n x y, nth_error l n = Some x -> nth_error (update n y l) n = Some y.
Proof.
  induction l as [|z l IH]; intros [|n] x y H; simpl in *; try discriminate; eauto.
Qed.

Lemma settle_creation_promises (w w' : world) (a : settled) :
  settle_creation w = Some (a, w') -> promises w' = promises w.
Proof.
  unfold settle_creation. destruct (doc w).
  - intros [= _ <-]. reflexivity.
  - destruct (script w) as [|[x|x] rest]; [discriminate| |]; intros [= _ <-]; reflexivity.
Qed.

(** [run] is the one schedule of a single invocation: the invocation started,
    each call answered and each creation settled when the invocation waits
    for it. *)
Lemma run_is_a_schedule (p : prog unit) :
  forall w,
  exists schedule p',
    exec schedule (mkPool [fst (advance 0 p w)] (snd (advance 0 p w)))
    = Some (mkPool [left_by (fst (run 0 p w)) p'] (snd (run 0 p w))).
Proof.
  induction p; intro w.
  - exists [], (Ret a). reflexivity.
  - exists [], (Throw e). reflexivity.
  - simpl. apply IHp.
  - destruct (IHp w) as [schedule [p' Hs]].
    exists (Resume 0 :: schedule), p'. simpl. unfold continue.
    destruct (advance 0 p w) as [t w1]. exact Hs.
  - simpl. destruct (answer c (add (Invoked 0 c) w)) as [[a w2]|] eqn:Ea.
    + destruct (H a (add (Answered 0 c a) w2)) as [schedule [p' Hs]].
      exists (Answer 0 :: schedule), p'. simpl. unfold quiet. simpl. rewrite Ea. unfold continue.
      destruct (advance 0 (k a) (add (Answered 0 c a) w2)) as [t w1]. exact Hs.
    + exists [], (Call c k). reflexivity.
  - simpl. apply H.
  - simpl. destruct (nth_error (promises w) p) as [[a|]|] eqn:En.
    + destruct (H a (add (Awaited 0 p a) w)) as [schedule [p' Hs]].
      exists (Resume 0 :: schedule), p'. simpl. unfold settled_promise. rewrite En. unfold continue.
      destruct (advance 0 (k a) (add (Awaited 0 p a) w)) as [t w1]. exact Hs.
    + destruct (settle_creation w) as [[a w1]|] eqn:Es.
      * pose proof (settle_creation_promises _ _ _ Es) as Hp.
        assert (En' : nth_error (update p (Some a) (promises w1)) p = Some (Some a)).
        { rewrite Hp. eapply nth_error_update; eauto. }
        destruct (H a (add (Awaited 0 p a) (set_promises (update p (Some a) (promises w1)) w1)))
          as [schedule [p' Hs]].
        exists (SettleCreation p :: Resume 0 :: schedule), p'. simpl.
        rewrite En. unfold quiet. simpl. unfold settled_promise at 1. rewrite En. simpl.
        rewrite Es. simpl. unfold settled_promise. simpl. rewrite En'. unfold continue.
        destruct (advance 0 (k a) (add (Awaited 0 p a)
                    (set_promises (update p (Some a) (promises w1)) w1))) as [t w2].
        exact Hs.
      * exists [], (AwaitPromise p k). reflexivity.
    + exists [], (AwaitPromise p k). reflexivity.
  - simpl. apply H.
  - simpl. apply IHp.
  - simpl. apply H.
Qed.

(** A single call, from the moment it is made. *)
Lemma run_from_start (p : prog unit) (w : world) :
  exists schedule p',
    exec schedule (mkPool [Waiting p] w)
    = Some (mkPool [left_by (fst (run 0 p w)) p'] (snd (run 0 p w))).
Proof.
  destruct (run_is_a_schedule p w) as [schedule [p' Hs]].
  exists (Start 0 :: schedule), p'. simpl. unfold continue.
  destruct (advance 0 p w) as [t w1]. exact Hs.
Qed.

End Interleavings.

(** ** The coordinator's handling of a [captureArea] request *)

Section Coordinator.
Import Async Runtime Observe Background.
Context {NF : NumberFormat}.
Variable v : variant.
Variable e : env.

Ltac lifecycle :=
  repeat first
    [ apply lifecycle_cases
    | progress intros
    | progress simpl
    | split
    | exact I
    | match goal with
      | |- lifecycle_only (match ?x with _ => _ end) => destruct x
      | |- lifecycle_only (if ?b then _ else _) => destruct b
      end ].

Lemma has_lifecycle_only : lifecycle_only (hasOffscreenDocument v e).
Proof.
  unfold hasOffscreenDocument, query_contexts, await_call, bind.
  destruct v; lifecycle.
Qed.

Lemma close_lifecycle_only : lifecycle_only (closeOffscreenDocument v e).
Proof.
  pose proof has_lifecycle_only as Hhas.
  unfold closeOffscreenDocument, try_catch, await_async, await_call, bind.
  destruct v; destruct (offscreen_api e); simpl; auto;
    repeat first
      [ exact Hhas
      | apply lifecycle_cases
      | progress intros
      | progress simpl
      | split
      | exact I
      | match goal with
        | |- lifecycle_only (match ?x with _ => _ end) => destruct x
        | |- lifecycle_only (if ?b then _ else _) => destruct b
        end ].
Qed.

Lemma create_lifecycle_only : lifecycle_only (create_fresh v).
Proof.
  unfold create_fresh, try_finally, try_catch, await_marker, await_promise, bind.
  destruct v; lifecycle.
Qed.

Lemma setup_lifecycle_only : lifecycle_only (setupOffscreenDocumentForClipboard v e).
Proof.
  pose proof has_lifecycle_only as Hhas.
  pose proof close_lifecycle_only as Hclose.
  pose proof create_lifecycle_only as Hcreate.
  unfold setupOffscreenDocumentForClipboard, await_async, await_marker, await_promise, bind.
  destruct (offscreen_api e); simpl; auto.
  destruct v;
    repeat first
      [ exact Hhas
      | exact Hclose
      | exact Hcreate
      | apply lifecycle_cases
      | progress intros
      | progress simpl
      | split
      | exact I
      | match goal with
        | |- lifecycle_only (match ?x with _ => _ end) => destruct x
        | |- lifecycle_only (if ?b then _ else _) => destruct b
        end ].
Qed.

Lemma view_after_silent (t d : list entry) :
  view t = ([], [], [], []) -> view (t ++ d) = view d.
Proof.
  intro Ht. rewrite view_app. unfold view in Ht. injection Ht as -> -> -> ->. reflexivity.
Qed.

(** A call on its own, from the state before any call, takes at most one
    decision of the platform and is suspended for ever only when there is
    none. *)
Lemma setup_alone (existing : bool) (lastErr : value) (sc : list settled) :
  let r := run 0 (setupOffscreenDocumentForClipboard v e) (initial existing lastErr sc) in
  (script (snd r) = sc \/ script (snd r) = tl sc)
  /\ (fst r = Pending -> sc = []).
Proof.
  destruct v; destruct e as [[] []]; destruct existing; destruct sc as [|[x|x] rest];
    vm_compute; split; auto; discriminate.
Qed.

Lemma capture_and_crop_decisions (request sender : value) :
  decisions 2 (capture_and_crop request sender).
Proof.
  unfold capture_and_crop, await_call, last_error, bind, emit. simpl.
  intros [dataUrl|err]; simpl; auto. intro lastErr.
  destruct (truthy lastErr || negb (truthy dataUrl)); simpl; auto.
  intros [r|err]; simpl; auto. intro lastErr'.
  destruct (truthy lastErr'); simpl; auto.
  destruct (truthy (and_then r (get r "success"))); simpl; auto.
Qed.

Lemma report_error_decisions (err : error) : decisions 0 (report_error err).
Proof. unfold report_error, bind, emit. simpl. exact I. Qed.

(** With three decisions in the script, the handling of a request ends. *)
Lemma captureArea_ends (request sender : value) (existing : bool) (lastErr : value)
      (a b c : settled) (rest : list settled) :
  fst (run 0 (captureArea v e request sender) (initial existing lastErr (a :: b :: c :: rest)))
  <> Pending.
Proof.
  unfold captureArea, try_catch, bind, await_async. rewrite !run_cases.
  pose proof (setup_alone existing lastErr (a :: b :: c :: rest)) as [Hsc Hpend].
  destruct (run 0 (setupOffscreenDocumentForClipboard v e) (initial existing lastErr (a :: b :: c :: rest)))
    as [o w1].
  simpl in Hsc, Hpend.
  destruct o as [u|err|]; [| |specialize (Hpend eq_refl); discriminate].
  - change (run 0 (Tick (Ret u)) w1) with (@Returned unit u, w1). cbv iota beta.
    pose proof (decisions_run 0 (capture_and_crop request sender) 2 w1
                  (capture_and_crop_decisions request sender)) as Hcrop.
    destruct (run 0 (capture_and_crop request sender) w1) as [o2 w2].
    destruct o2 as [u2|err|].
    + discriminate.
    + apply (decisions_run 0 _ 0); [apply report_error_decisions | lia].
    + exfalso. apply Hcrop; [|reflexivity]. destruct Hsc as [-> | ->]; simpl; lia.
  - change (run 0 (Tick (Throw err)) w1) with (@Threw unit err, w1). cbv iota beta.
    change (run 0 (Throw err) w1) with (@Threw unit err, w1). cbv iota beta.
    apply (decisions_run 0 _ 0); [apply report_error_decisions | lia].
Qed.

Ltac normalise_view Hview :=
  unfold handled; rewrite <- ?app_assoc; rewrite (view_after_silent _ _ Hview); simpl.

(** The path has ended. *)
Ltac leaf Hview :=
  normalise_view Hview;
  split; [repeat constructor; eauto|]; split; [eauto|];
  let Hin := fresh "Hin" in
  let Hfail := fresh "Hfail" in
  intros _ ? Hin Hfail; simpl in Hin;
  first [ contradiction
        | destruct Hin as [<-|[]]; first [congruence | simpl; auto] ].

(** The path waits for the platform. *)
Ltac waiting Hview :=
  normalise_view Hview; split; [repeat constructor; eauto | auto].

(** Every path through the handling of a [captureArea] request leaves the
    request [handled]. *)
Lemma captureArea_paths (who : nat) (le request sender : value) :
  every_path who le (captureArea v e request sender) (handled le request) [].
Proof.
  unfold captureArea, try_catch, bind, await_async.
  do 3 apply every_path_cases.
  eapply every_path_weaken; [|apply lifecycle_silent, setup_lifecycle_only].
  intros t o Hview.
  change (view []) with (@nil value, @nil (string * value), @nil value, @nil value) in Hview.
  assert (Hreport : forall err t', view t' = ([], [], [], []) ->
                                   every_path who le (report_error err) (handled le request) t').
  { intros err t' Ht'. unfold report_error, bind, emit. simpl. leaf Ht'. }
  destruct o as [[]|err|]; [|exact (Hreport err t Hview)|].
  2:{ unfold handled. rewrite Hview. simpl. auto. }
  simpl. unfold capture_and_crop, await_call, last_error, bind, emit. simpl.
  split; [waiting Hview|].
  intros [dataUrl|err]; simpl.
  2:{ apply Hreport. rewrite <- ?app_assoc. now rewrite view_after_silent. }
  destruct (truthy le) eqn:Ele; simpl.
  { unfold report_error, bind, emit. simpl. leaf Hview. }
  destruct (truthy dataUrl) eqn:Eurl; simpl.
  2:{ unfold report_error, bind, emit. simpl. leaf Hview. }
  split; [waiting Hview|].
  intros [r|err]; simpl.
  2:{ unfold report_error, bind, emit. simpl. leaf Hview. }
  rewrite Ele. simpl.
  destruct (truthy (and_then r (get r "success"))) eqn:Eok; simpl.
  - leaf Hview.
  - leaf Hview.
Qed.

(** *** The offscreen document *)






(** C4, as amended. For a [captureArea] request of a tab, the listener
    itself replies nothing, returns [true] and starts the handling; the
    handling never throws; when it is over it has sent exactly one reply and
    shown exactly one notification, and while it waits for the platform it
    has sent and shown none; it is over once the platform has taken its
    decisions (creation, capture, answer of the worker). *)
Theorem captureArea_one_reply_one_notification (request sender : value) :
  get request "action" = VStr "captureArea" ->
  truthy (get sender "tab") = true ->
  onMessage v e request sender
  = ([Console Info (received_text v request sender)], true, Some (captureArea v e request sender))
  /\ (forall who w,
        exists d,
          log (snd (run who (captureArea v e request sender) w)) = (log w ++ d)%list
          /\ match fst (run who (captureArea v e request sender) w) with
             | Returned _ =>
                 List.length (replies (effects_in d)) = 1%nat
                 /\ List.length (notifications (effects_in d)) = 1%nat
             | Threw _ => False
             | Pending => replies (effects_in d) = [] /\ notifications (effects_in d) = []
             end)
  /\ (forall existing lastErr a b c rest,
        fst (run 0 (captureArea v e request sender) (initial existing lastErr (a :: b :: c :: rest)))
        <> Pending).
Proof.
  intros Haction Htab. split; [|split].
  - unfold onMessage. rewrite Haction, Htab. reflexivity.
  - intros who w.
    destruct (run_every_path who (captureArea v e request sender) (handled (lastError w) request)
                [] w (captureArea_paths who (lastError w) request sender)) as [d [Hlog Hd]].
    exists d. split; [exact Hlog|].
    simpl in Hd. unfold handled, handled_view, view in Hd.
    destruct Hd as [_ Hd].
    destruct (fst (run who (captureArea v e request sender) w)).
    + destruct Hd as [[reply [note [-> ->]]] _]. auto.
    + exact Hd.
    + destruct Hd as [-> [-> _]]. auto.
  - intros. apply captureArea_ends.
Qed.

(** C5, as amended. When the worker has answered [{success: false, error:
    msg}] with a non-empty [msg] (and [chrome.runtime.lastError] is not
    set), the reply to the tab is [{success: false, error: msg}] and the
    notification shows [msg]. *)
Theorem worker_error_passed_on (request sender r : value) (msg : string) (who : nat)
        (w : world) (d : list entry) :
  truthy (lastError w) = false ->
  get r "success" = VBool false ->
  get r "error" = VStr msg ->
  msg <> "" ->
  log (snd (run who (captureArea v e request sender) w)) = (log w ++ d)%list ->
  In r (worker_replies d) ->
  replies (effects_in d) = [failure_reply msg]
  /\ notifications (effects_in d) = [("Screenshot Failed", VStr msg)].
Proof.
  intros Hle Hsuccess Herror Hmsg Hlog Hr.
  destruct (run_every_path who (captureArea v e request sender) (handled (lastError w) request)
              [] w (captureArea_paths who (lastError w) request sender)) as [d' [Hlog' Hd]].
  rewrite Hlog in Hlog'. apply app_inv_head in Hlog'. subst d'.
  simpl in Hd. unfold handled, handled_view, view in Hd.
  destruct Hd as [_ Hd].
  assert (Hfail : truthy (and_then r (get r "success")) = false).
  { unfold and_then. rewrite Hsuccess. destruct (truthy r) eqn:Et; [reflexivity | exact Et]. }
  assert (Hor : or_else (get r "error") (VStr unknown_error_text) = VStr msg).
  { unfold or_else. rewrite Herror. simpl.
    apply String.eqb_neq in Hmsg. now rewrite Hmsg. }
  destruct (fst (run who (captureArea v e request sender) w)).
  - destruct Hd as [_ Hd]. specialize (Hd Hle r Hr Hfail). simpl in Hd.
    rewrite Hor in Hd. exact Hd.
  - contradiction.
  - destruct Hd as [_ [_ Hws]]. rewrite Hws in Hr. contradiction.
Qed.


End Coordinator.

(** ** Instances and counterexamples *)

Import Async Runtime Observe Background.

Lemma crop_raster_size_witness :
  exists t,
    Offscreen.cropImage sample_host sample_url 0 0 10 10
    = (t, inl (mkBlob 100 "image/png" 10 10))
    /\ In (DrawImage 0 0 10 10 10 10) t
    /\ ~ In (Console Warn (Offscreen.outside_warning 0 0 10 10 (Offscreen.mkImage 20 20))) t.
Proof.
  destruct (crop_raster_size sample_host sample_url 0 0 10 10 (Offscreen.mkImage 20 20)
              100%N "image/png")
    as [t [Hcrop [_ [_ [Hdraw [_ Hwarn]]]]]].
  - discriminate.
  - reflexivity.
  - reflexivity.
  - reflexivity.
  - reflexivity.
  - exists t. split; [exact Hcrop|]. split; [exact Hdraw|].
    intro Hin. apply Hwarn in Hin. simpl in Hin. vm_compute in Hin.
    destruct Hin as [H|[H|[H|H]]]; discriminate H.
Defined.

(** The claim of C8 fails for a small overshoot: on the 20 x 20 image the
    rectangle (0, 0, 22, 10) passes the right edge by 2 pixels, and no
    warning is logged. *)
Lemma small_overshoot_is_not_logged :
  (0 + 22 > 20)%Z /\ (0 + 22 <= 20 + 5)%Z
  /\ warnings (fst (Offscreen.cropImage sample_host sample_url 0 0 22 10)) = []
  /\ snd (Offscreen.cropImage sample_host sample_url 0 0 22 10)
     = inl (mkBlob 100 "image/png" 22 10).
Proof.
  repeat split; try lia; reflexivity.
Qed.

Lemma captureArea_one_reply_one_notification_witness :
  exists d,
    log (snd (run 0 (captureArea V1 sample_env sample_request sample_sender)
                  (sample_world success_reply))) = d
    /\ List.length (replies (effects_in d)) = 1%nat
    /\ List.length (notifications (effects_in d)) = 1%nat.
Proof.
  destruct (captureArea_one_reply_one_notification V1 sample_env sample_request sample_sender
              eq_refl eq_refl) as [_ [H _]].
  destruct (H O (sample_world success_reply)) as [d [Hlog Hd]].
  assert (E : fst (run 0 (captureArea V1 sample_env sample_request sample_sender)
                       (sample_world success_reply)) = Returned tt) by (vm_compute; reflexivity).
  rewrite E in Hd. exists d. split; [exact Hlog | exact Hd].
Defined.

(** The claim of C4 fails for the [areaSelected] coordinator: for a valid
    region it sends no reply and shows no notification, whether the
    operation succeeds or the background-removal service refuses. *)
Lemma areaSelected_no_reply_no_notification :
  replies (LegacyBackground.onMessage legacy_host
             (LegacyOverlay.areaSelected_message (LegacyOverlay.mkRect 10 10 100 50) 2)) = []
  /\ notifications (LegacyBackground.onMessage legacy_host
                      (LegacyOverlay.areaSelected_message (LegacyOverlay.mkRect 10 10 100 50) 2)) = []
  /\ existsb (fun ev => match ev with ClipboardWrite _ _ => true | _ => false end)
             (LegacyBackground.onMessage legacy_host
                (LegacyOverlay.areaSelected_message (LegacyOverlay.mkRect 10 10 100 50) 2)) = true
  /\ LegacyBackground.onMessage legacy_host_refused
       (LegacyOverlay.areaSelected_message (LegacyOverlay.mkRect 10 10 100 50) 2)
     = [DrawScaled 20 20 200 100 100 50; ConvertToBlob; Fetch "https://api.remove.bg/v1.0/removebg"].
Proof.
  repeat split; reflexivity.
Qed.

Lemma worker_error_passed_on_witness :
  replies (effects (snd (run 0 (captureArea V1 sample_env sample_request sample_sender)
                             (sample_world (failure_reply "clipboard denied")))))
  = [failure_reply "clipboard denied"]
  /\ notifications (effects (snd (run 0 (captureArea V1 sample_env sample_request sample_sender)
                                      (sample_world (failure_reply "clipboard denied")))))
     = [("Screenshot Failed", VStr "clipboard denied")].
Proof.
  apply (worker_error_passed_on V1 sample_env sample_request sample_sender
           (failure_reply "clipboard denied") "clipboard denied" O
           (sample_world (failure_reply "clipboard denied"))).
  - reflexivity.
  - reflexivity.
  - reflexivity.
  - discriminate.
  - reflexivity.
  - vm_compute. left. reflexivity.
Defined.

(** The claim of C5 fails for the empty error string: the worker's reply
    [{success: false, error: ""}] is passed on with the generic message. *)
Lemma empty_worker_error_is_replaced :
  worker_replies (log (snd (run 0 (captureArea V1 sample_env sample_request sample_sender)
                                (sample_world (failure_reply "")))))
  = [failure_reply ""]
  /\ replies (effects (snd (run 0 (captureArea V1 sample_env sample_request sample_sender)
                                (sample_world (failure_reply "")))))
     = [failure_reply "Unknown error from screenshot processing service."].
Proof.
  split; vm_compute; reflexivity.
Qed.







(** * Further properties

    Properties of the code besides the claims: of the worker's handling of a
    crop request, of the coordinator's reports and of its offscreen document,
    of interleaved handlings, of the overlays, of the [areaSelected]
    coordinator, and of the icon and the popup. *)

(** ** Sequential code with effects *)

Section EffLaws.
Import Eff.
Context {A B : Type}.

Lemma bind_eq (m : eff A) (f : A -> eff B) :
  bind m f = match snd m with
             | inl a => ((fst m ++ fst (f a))%list, snd (f a))
             | inr e => (fst m, inr e)
             end.
Proof. destruct m as [t [a|e]]; simpl; [destruct (f a)|]; reflexivity. Qed.

Lemma try_catch_eq (m : eff A) (hd : error -> eff A) :
  try_catch m hd = match snd m with
                   | inl a => (fst m, inl a)
                   | inr e => ((fst m ++ fst (hd e))%list, snd (hd e))
                   end.
Proof. destruct m as [t [a|e]]; simpl; [|destruct (hd e)]; reflexivity. Qed.

End EffLaws.

Section EffSteps.
Import Eff.
Context {X : Type}.

Lemma bind_throw_if (c : bool) (e : error) (f : unit -> eff X) :
  bind (throw_if c e) f = if c then ([], inr e) else f tt.
Proof. destruct c; simpl; [reflexivity|]. destruct (f tt); reflexivity. Qed.

Lemma bind_emit (ev : event) (f : unit -> eff X) :
  bind (emit ev) f = (ev :: fst (f tt), snd (f tt)).
Proof. simpl. destruct (f tt); reflexivity. Qed.

Lemma bind_when (c : bool) (m : eff unit) (f : unit -> eff X) :
  bind (when c m) f = if c then bind m f else f tt.
Proof. destruct c; simpl; [reflexivity|]. destruct (f tt); reflexivity. Qed.

End EffSteps.

Lemma prefix_nonempty (p s : string) : p <> "" -> prefix p s = true -> (s =? "") = false.
Proof. intros Hp H. destruct s; [destruct p; [congruence|discriminate]|reflexivity]. Qed.

(** ** The worker: one reply, and what it says *)

Section WorkerReplies.
Context {NF : NumberFormat}.
Variable h : Offscreen.host.
Import Eff.

Ltac split_paths :=
  repeat (simpl;
    match goal with
    | |- context [let (_, _) := ?x in _] => is_var x; destruct x
    | |- context [if ?b then _ else _] => destruct b eqn:?
    | |- context [match ?x with Some _ => _ | None => _ end] => destruct x eqn:?
    end).

Lemma cropImage_silent (dataUrl : string) (x y width height : Q) :
  replies (fst (Offscreen.cropImage h dataUrl x y width height)) = []
  /\ focus_and_copy (fst (Offscreen.cropImage h dataUrl x y width height)) = []
  /\ clipboard_writes (fst (Offscreen.cropImage h dataUrl x y width height)) = [].
Proof.
  unfold Offscreen.cropImage, bind, try_catch, when, throw_if, emit, ret, throw.
  split_paths; auto.
Qed.

Lemma guards_pass (request : value) (url : string) (x y width height : Q) :
  crop_data request url x y width height ->
  negb (truthy (get request "dataUrl")) || negb (typeof (get request "dataUrl") =? "string")
  || negb (Offscreen.starts_with (get request "dataUrl") "data:image/") = false
  /\ negb (truthy (get request "coords"))
     || negb (typeof (get (get request "coords") "x") =? "number")
     || negb (typeof (get (get request "coords") "y") =? "number")
     || negb (typeof (get (get request "coords") "width") =? "number")
     || negb (typeof (get (get request "coords") "height") =? "number") = false
  /\ Qle_bool (Offscreen.number_of (get (get request "coords") "width")) 0
     || Qle_bool (Offscreen.number_of (get (get request "coords") "height")) 0 = false.
Proof.
  intros (Hurl & Hpre & Hx & Hy & Hw & Hh & Hwp & Hhp).
  rewrite Hurl, Hx, Hy, Hw, Hh. simpl.
  rewrite (prefix_nonempty "data:image/" url) by (discriminate || exact Hpre). rewrite Hpre. simpl.
  assert (Hc : truthy (get request "coords") = true).
  { destruct (get request "coords") as [| | | | s | l | fields]; try discriminate Hx; try reflexivity.
    all: simpl in Hx; discriminate. }
  rewrite Hc. simpl.
  assert (Hw' : Qle_bool width 0 = false).
  { destruct (Qle_bool width 0) eqn:E; [|reflexivity].
    apply Qle_bool_iff in E. exfalso. exact (Qlt_not_le _ _ Hwp E). }
  assert (Hh' : Qle_bool height 0 = false).
  { destruct (Qle_bool height 0) eqn:E; [|reflexivity].
    apply Qle_bool_iff in E. exfalso. exact (Qlt_not_le _ _ Hhp E). }
  rewrite Hw', Hh'. auto.
Qed.

(** What is observed of the handling of a request that passes the checks,
    by the result of [cropImage] and of the clipboard. *)
Lemma cropAndCopy_observed (request : value) (url : string) (x y width height : Q) :
  crop_data request url x y width height ->
  observe (Offscreen.cropAndCopy h request)
  = match snd (Offscreen.cropImage h url x y width height) with
    | inr e =>
        ([failure_reply (error_text e)], [], [],
         warnings (fst (Offscreen.cropImage h url x y width height)))
    | inl b =>
        let type := if blob_type b =? "" then "image/png" else blob_type b in
        (match Offscreen.clipboard_write h with
         | None => [success_reply]
         | Some e => [failure_reply (error_text e)]
         end,
         [(type, b)],
         (if Offscreen.has_focus h then [Focus] else []) ++ [ClipboardWrite type b],
         warnings (fst (Offscreen.cropImage h url x y width height))
         ++ (if (blob_size b =? 0)%N
             then ["[Offscreen] Cropped blob size is 0. The resulting image might be empty. This could also happen if crop coordinates were outside the source image."]
             else [])
         ++ (if Offscreen.has_focus h then []
             else ["[Offscreen] window.focus is not available in this context."]))%list
    end.
Proof.
  intro Hdata. pose proof (guards_pass _ _ _ _ _ _ Hdata) as (G1 & G2 & G3).
  destruct Hdata as (Hurl & Hpre & Hx & Hy & Hw & Hh & Hwp & Hhp).
  unfold Offscreen.cropAndCopy. cbv zeta.
  match goal with |- context [try_catch ?m ?hd] => set (handler := hd) end.
  assert (Hcatch : forall e, observe (fst (handler e)) = ([failure_reply (error_text e)], [], [], [])).
  { intro e. subst handler. cbv beta. rewrite bind_emit, bind_when.
    destruct (err_name e =? "NotAllowedError"); reflexivity. }
  clearbody handler.
  rewrite try_catch_eq, bind_throw_if, G1, bind_throw_if, G2, bind_throw_if, G3, bind_emit.
  rewrite Hurl, Hx, Hy, Hw, Hh. simpl Offscreen.string_of. simpl Offscreen.number_of.
  destruct (cropImage_silent url x y width height) as (Hr & Hf & Hc).
  rewrite bind_eq.
  destruct (Offscreen.cropImage h url x y width height) as [t [b|e]]; cbn [fst snd] in *.
  - rewrite bind_emit, bind_when, !bind_emit.
    destruct (blob_size b =? 0)%N, (Offscreen.has_focus h), (Offscreen.clipboard_write h) as [e|];
      cbn [fst snd bind emit throw];
      try (pose proof (Hcatch e) as He);
      unfold observe, replies, clipboard_writes, focus_and_copy, warnings in *;
      try (injection He as He1 He2 He3 He4);
      simpl; rewrite ?flat_map_app, ?filter_app; simpl; rewrite ?flat_map_app, ?filter_app;
      rewrite ?He1, ?He2, ?He3, ?He4, Hr, Hf, Hc; simpl; rewrite ?app_nil_r; reflexivity.
  - pose proof (Hcatch e) as He.
    unfold observe, replies, clipboard_writes, focus_and_copy, warnings in *.
    injection He as He1 He2 He3 He4.
    simpl. rewrite !flat_map_app, filter_app.
    rewrite He1, He2, He3, He4, Hr, Hf, Hc. simpl. rewrite app_nil_r. reflexivity.
Qed.

Lemma cropAndCopy_rejected (request : value) :
  let c1 := negb (truthy (get request "dataUrl")) || negb (typeof (get request "dataUrl") =? "string")
            || negb (Offscreen.starts_with (get request "dataUrl") "data:image/") in
  let c2 := negb (truthy (get request "coords"))
            || negb (typeof (get (get request "coords") "x") =? "number")
            || negb (typeof (get (get request "coords") "y") =? "number")
            || negb (typeof (get (get request "coords") "width") =? "number")
            || negb (typeof (get (get request "coords") "height") =? "number") in
  let c3 := Qle_bool (Offscreen.number_of (get (get request "coords") "width")) 0
            || Qle_bool (Offscreen.number_of (get (get request "coords") "height")) 0 in
  c1 || c2 || c3 = true ->
  exists e, observe (Offscreen.cropAndCopy h request) = ([failure_reply (error_text e)], [], [], [])
            /\ (c1 = true -> e = Error "Invalid or missing dataUrl.").
Proof.
  intros c1 c2 c3 Hc.
  unfold Offscreen.cropAndCopy. cbv zeta.
  match goal with |- context [try_catch ?m ?hd] => set (handler := hd) end.
  assert (Hcatch : forall e, observe (fst (handler e)) = ([failure_reply (error_text e)], [], [], [])).
  { intro e. subst handler. cbv beta. rewrite bind_emit, bind_when.
    destruct (err_name e =? "NotAllowedError"); reflexivity. }
  clearbody handler.
  rewrite try_catch_eq, bind_throw_if. fold c1.
  destruct c1.
  { cbn [fst snd app]. eexists. split; [apply Hcatch | reflexivity]. }
  rewrite bind_throw_if. fold c2.
  destruct c2.
  { cbn [fst snd app]. eexists. split; [apply Hcatch | discriminate]. }
  rewrite bind_throw_if. fold c3.
  destruct c3; [|discriminate Hc].
  cbn [fst snd app]. eexists. split; [apply Hcatch | discriminate].
Qed.

Lemma guards_pass_inv (request : value) :
  negb (truthy (get request "dataUrl")) || negb (typeof (get request "dataUrl") =? "string")
  || negb (Offscreen.starts_with (get request "dataUrl") "data:image/") = false ->
  negb (truthy (get request "coords"))
  || negb (typeof (get (get request "coords") "x") =? "number")
  || negb (typeof (get (get request "coords") "y") =? "number")
  || negb (typeof (get (get request "coords") "width") =? "number")
  || negb (typeof (get (get request "coords") "height") =? "number") = false ->
  Qle_bool (Offscreen.number_of (get (get request "coords") "width")) 0
  || Qle_bool (Offscreen.number_of (get (get request "coords") "height")) 0 = false ->
  exists url x y width height, crop_data request url x y width height.
Proof.
  intros G1 G2 G3.
  apply orb_false_elim in G1. destruct G1 as [G1 Hpre]. apply negb_false_iff in Hpre.
  repeat (apply orb_false_elim in G2; destruct G2 as [G2 ?]).
  repeat match goal with H : negb _ = false |- _ => apply negb_false_iff in H end.
  repeat match goal with
         | H : (typeof _ =? "number") = true |- _ => apply typeof_number in H; destruct H as [? H]
         end.
  apply orb_false_elim in G3. destruct G3 as [Hw Hh].
  unfold crop_data.
  destruct (get request "dataUrl") as [| | | | url | |]; try discriminate Hpre.
  simpl in Hpre.
  repeat match goal with H : get _ _ = VNum _ |- _ => rewrite H in *; clear H end.
  simpl in Hw, Hh.
  do 5 eexists.
  repeat split; try reflexivity; try assumption.
  - apply Qnot_le_lt. intro Hle. apply Qle_bool_iff in Hle. congruence.
  - apply Qnot_le_lt. intro Hle. apply Qle_bool_iff in Hle. congruence.
Qed.

Lemma onMessage_cropAndCopy (request : value) :
  get request "target" = VStr "offscreen" ->
  get request "action" = VStr "cropAndCopy" ->
  snd (Offscreen.onMessage h request) = true
  /\ observe (fst (Offscreen.onMessage h request)) = observe (Offscreen.cropAndCopy h request).
Proof.
  intros Ht Ha. unfold Offscreen.onMessage. rewrite Ht, Ha. split; reflexivity.
Qed.

Lemma observed_parts (t : list event) a b c d :
  observe t = (a, b, c, d) ->
  replies t = a /\ clipboard_writes t = b /\ focus_and_copy t = c /\ warnings t = d.
Proof. unfold observe. intros [= -> -> -> ->]. auto. Qed.

(** X1. Every [cropAndCopy] request gets exactly one reply from the worker,
    whatever the request holds and whatever the document does, and the
    listener returns [true]: the reply is [{success: true}], and then the
    clipboard was written once and accepted the write, or it is
    [{success: false, error}] with the text of line 131 for some exception;
    the clipboard is written at most once. *)
Theorem worker_replies_exactly_once (request : value) :
  get request "target" = VStr "offscreen" ->
  get request "action" = VStr "cropAndCopy" ->
  exists reply,
    replies (fst (Offscreen.onMessage h request)) = [reply]
    /\ snd (Offscreen.onMessage h request) = true
    /\ (reply = success_reply \/ exists e, reply = failure_reply (error_text e))
    /\ (List.length (clipboard_writes (fst (Offscreen.onMessage h request))) <= 1)%nat
    /\ (reply = success_reply ->
        Offscreen.clipboard_write h = None
        /\ List.length (clipboard_writes (fst (Offscreen.onMessage h request))) = 1%nat).
Proof.
  intros Ht Ha. destruct (onMessage_cropAndCopy request Ht Ha) as [Hret Hobs].
  rewrite Hret.
  destruct (negb (truthy (get request "dataUrl")) || negb (typeof (get request "dataUrl") =? "string")
            || negb (Offscreen.starts_with (get request "dataUrl") "data:image/")) eqn:G1;
    [|destruct (negb (truthy (get request "coords"))
                || negb (typeof (get (get request "coords") "x") =? "number")
                || negb (typeof (get (get request "coords") "y") =? "number")
                || negb (typeof (get (get request "coords") "width") =? "number")
                || negb (typeof (get (get request "coords") "height") =? "number")) eqn:G2;
      [|destruct (Qle_bool (Offscreen.number_of (get (get request "coords") "width")) 0
                  || Qle_bool (Offscreen.number_of (get (get request "coords") "height")) 0) eqn:G3]].
  1-3: destruct (cropAndCopy_rejected request) as [e [He _]];
    [cbv zeta; rewrite G1, ?G2, ?G3; reflexivity|];
    rewrite <- Hobs in He; apply observed_parts in He; destruct He as (-> & -> & _);
    exists (failure_reply (error_text e)); repeat split; eauto; discriminate.
  destruct (guards_pass_inv request G1 G2 G3) as (url & x & y & width & height & Hdata).
  pose proof (cropAndCopy_observed request url x y width height Hdata) as He.
  rewrite <- Hobs in He.
  destruct (snd (Offscreen.cropImage h url x y width height)) as [b|e].
  - cbv zeta in He. apply observed_parts in He. destruct He as (-> & -> & _).
    destruct (Offscreen.clipboard_write h) as [e|].
    + exists (failure_reply (error_text e)). repeat split; eauto; discriminate.
    + exists success_reply. repeat split; auto.
  - apply observed_parts in He. destruct He as (-> & -> & _).
    exists (failure_reply (error_text e)). repeat split; eauto; discriminate.
Qed.

(** What [cropImage] yields for the data URL of an image, by what the
    document does. *)
Lemma cropImage_outcome (url : string) (x y width height : Q) :
  prefix "data:image/" url = true ->
  let rw := Z.max 1 (Math_round width) in
  let rh := Z.max 1 (Math_round height) in
  let r := Offscreen.cropImage h url x y width height in
  match Offscreen.load_image h url with
  | None =>
      snd r = inr (Error "Image loading failed in offscreen document. The dataUrl might be malformed or too long.")
  | Some img =>
      match Offscreen.draw_image h with
      | Some e =>
          snd r = inr (Error ("drawImage failed: " ++ err_name e ++ " - " ++ err_message e
                              ++ ". Check source coords (x:" ++ Offscreen.show (Math_round x)
                              ++ ",y:" ++ Offscreen.show (Math_round y)
                              ++ ",w:" ++ Offscreen.show rw ++ ",h:" ++ Offscreen.show rh
                              ++ ") vs image (" ++ Offscreen.show (Offscreen.img_width img)
                              ++ "x" ++ Offscreen.show (Offscreen.img_height img) ++ ")."))
      | None =>
          match Offscreen.to_blob h with
          | None => snd r = inr (Error "Canvas toBlob failed to produce a blob.")
          | Some (size, type) =>
              snd r = inl (mkBlob size type rw rh)
              /\ (size = 0%N ->
                  In "[Offscreen cropImage] canvas.toBlob produced an empty blob (size 0). This might be due to fully transparent image or invalid drawImage parameters."
                     (warnings (fst r)))
          end
      end
  end.
Proof.
  intros Hpre rw rh r. subst r. unfold Offscreen.cropImage.
  rewrite (prefix_nonempty "data:image/" url) by (discriminate || exact Hpre). rewrite Hpre.
  cbn [orb negb].
  assert (Hpos : (rw <=? 0)%Z || (rh <=? 0)%Z = false).
  { apply orb_false_intro; apply Z.leb_gt; unfold rw, rh; lia. }
  destruct (Offscreen.load_image h url) as [img|]; [|reflexivity].
  unfold bind, try_catch, when, throw_if, emit, ret, throw. cbv zeta. fold rw rh.
  rewrite Hpos.
  destruct (Offscreen.draw_image h) as [e|]; [split_paths; auto|].
  destruct (Offscreen.to_blob h) as [[size type]|]; split_paths; auto.
  all: split; [reflexivity|]; intros ->; try discriminate; simpl; auto.
Qed.

(** X2. When the image loads, is drawn and encoded and the clipboard accepts
    the write, the worker focuses its window first (when [window.focus] is
    there), writes the Blob of the rounded size once, under the Blob's type or
    ['image/png'] when that is empty, and replies [{success: true}]; an empty
    Blob is copied all the same, with the two warnings of lines 104 and 200. *)
Theorem worker_copies_the_crop (request : value) (url : string) (x y width height : Q)
        (img : Offscreen.image) (size : N) (type : string) :
  get request "target" = VStr "offscreen" ->
  get request "action" = VStr "cropAndCopy" ->
  crop_data request url x y width height ->
  Offscreen.load_image h url = Some img ->
  Offscreen.draw_image h = None ->
  Offscreen.to_blob h = Some (size, type) ->
  Offscreen.clipboard_write h = None ->
  let b := mkBlob size type (Z.max 1 (Math_round width)) (Z.max 1 (Math_round height)) in
  let written := if type =? "" then "image/png" else type in
  replies (fst (Offscreen.onMessage h request)) = [success_reply]
  /\ focus_and_copy (fst (Offscreen.onMessage h request))
     = ((if Offscreen.has_focus h then [Focus] else []) ++ [ClipboardWrite written b])%list
  /\ (size = 0%N ->
      In "[Offscreen cropImage] canvas.toBlob produced an empty blob (size 0). This might be due to fully transparent image or invalid drawImage parameters."
         (warnings (fst (Offscreen.onMessage h request)))
      /\ In "[Offscreen] Cropped blob size is 0. The resulting image might be empty. This could also happen if crop coordinates were outside the source image."
            (warnings (fst (Offscreen.onMessage h request)))).
Proof.
  intros Ht Ha Hdata Hload Hdraw Hblob Hclip b written.
  destruct (onMessage_cropAndCopy request Ht Ha) as [_ Hobs].
  pose proof (cropAndCopy_observed request url x y width height Hdata) as He.
  rewrite <- Hobs in He.
  pose proof (cropImage_outcome url x y width height (proj1 (proj2 Hdata))) as Hcrop.
  cbv zeta in Hcrop. rewrite Hload, Hdraw, Hblob in Hcrop. destruct Hcrop as [Hcrop Hwarn].
  rewrite Hcrop, Hclip in He. cbv zeta in He. cbn [blob_type blob_size] in He.
  apply observed_parts in He. destruct He as (-> & _ & -> & ->).
  split; [reflexivity|]. split; [reflexivity|].
  intros ->. split.
  - apply in_or_app. left. now apply Hwarn.
  - apply in_or_app. right. simpl. auto.
Qed.

(** X3. A crop that fails is reported with its cause, and the clipboard is not
    written: the image does not load, [drawImage] throws (its name, message
    and the rounded source rectangle are in the text), or [toBlob] yields no
    Blob. *)
Theorem worker_reports_crop_failure (request : value) (url : string) (x y width height : Q) :
  get request "target" = VStr "offscreen" ->
  get request "action" = VStr "cropAndCopy" ->
  crop_data request url x y width height ->
  (Offscreen.load_image h url = None ->
   replies (fst (Offscreen.onMessage h request))
   = [failure_reply "Offscreen: Error - Image loading failed in offscreen document. The dataUrl might be malformed or too long."]
   /\ clipboard_writes (fst (Offscreen.onMessage h request)) = [])
  /\ (forall img e,
        Offscreen.load_image h url = Some img ->
        Offscreen.draw_image h = Some e ->
        replies (fst (Offscreen.onMessage h request))
        = [failure_reply ("Offscreen: Error - drawImage failed: " ++ err_name e ++ " - " ++ err_message e
                          ++ ". Check source coords (x:" ++ Offscreen.show (Math_round x)
                          ++ ",y:" ++ Offscreen.show (Math_round y)
                          ++ ",w:" ++ Offscreen.show (Z.max 1 (Math_round width))
                          ++ ",h:" ++ Offscreen.show (Z.max 1 (Math_round height))
                          ++ ") vs image (" ++ Offscreen.show (Offscreen.img_width img)
                          ++ "x" ++ Offscreen.show (Offscreen.img_height img) ++ ").")]
        /\ clipboard_writes (fst (Offscreen.onMessage h request)) = [])
  /\ (forall img,
        Offscreen.load_image h url = Some img ->
        Offscreen.draw_image h = None ->
        Offscreen.to_blob h = None ->
        replies (fst (Offscreen.onMessage h request))
        = [failure_reply "Offscreen: Error - Canvas toBlob failed to produce a blob."]
        /\ clipboard_writes (fst (Offscreen.onMessage h request)) = []).
Proof.
  intros Ht Ha Hdata.
  destruct (onMessage_cropAndCopy request Ht Ha) as [_ Hobs].
  pose proof (cropAndCopy_observed request url x y width height Hdata) as He.
  rewrite <- Hobs in He.
  pose proof (cropImage_outcome url x y width height (proj1 (proj2 Hdata))) as Hcrop.
  cbv zeta in Hcrop.
  split; [|split].
  - intro Hload. rewrite Hload in Hcrop. rewrite Hcrop in He.
    apply observed_parts in He. destruct He as (-> & -> & _). split; reflexivity.
  - intros img e Hload Hdraw. rewrite Hload, Hdraw in Hcrop. rewrite Hcrop in He.
    apply observed_parts in He. destruct He as (-> & -> & _). split; reflexivity.
  - intros img Hload Hdraw Hblob. rewrite Hload, Hdraw, Hblob in Hcrop. rewrite Hcrop in He.
    apply observed_parts in He. destruct He as (-> & -> & _). split; reflexivity.
Qed.

(** X4. When the clipboard rejects the write, the worker replies
    [{success: false, error}] with the name and the message of the rejection
    (['Error'] and ['Unknown error'] standing in for an empty one); the write
    was attempted once. *)
Theorem worker_reports_clipboard_rejection (request : value) (url : string) (x y width height : Q)
        (img : Offscreen.image) (size : N) (type : string) (e : error) :
  get request "target" = VStr "offscreen" ->
  get request "action" = VStr "cropAndCopy" ->
  crop_data request url x y width height ->
  Offscreen.load_image h url = Some img ->
  Offscreen.draw_image h = None ->
  Offscreen.to_blob h = Some (size, type) ->
  Offscreen.clipboard_write h = Some e ->
  replies (fst (Offscreen.onMessage h request)) = [failure_reply (error_text e)]
  /\ List.length (clipboard_writes (fst (Offscreen.onMessage h request))) = 1%nat
  /\ (err_name e <> "" -> err_message e <> "" ->
      error_text e = "Offscreen: " ++ err_name e ++ " - " ++ err_message e).
Proof.
  intros Ht Ha Hdata Hload Hdraw Hblob Hclip.
  destruct (onMessage_cropAndCopy request Ht Ha) as [_ Hobs].
  pose proof (cropAndCopy_observed request url x y width height Hdata) as He.
  rewrite <- Hobs in He.
  pose proof (cropImage_outcome url x y width height (proj1 (proj2 Hdata))) as Hcrop.
  cbv zeta in Hcrop. rewrite Hload, Hdraw, Hblob in Hcrop. destruct Hcrop as [Hcrop _].
  rewrite Hcrop, Hclip in He. cbv zeta in He.
  apply observed_parts in He. destruct He as (-> & -> & _).
  split; [reflexivity|]. split; [reflexivity|].
  intros Hn Hm. unfold error_text.
  apply String.eqb_neq in Hn, Hm. now rewrite Hn, Hm.
Qed.

(** X5. A request whose [dataUrl] is not a string that starts with
    ['data:image/'] is refused with ['Invalid or missing dataUrl.'], whatever
    its coordinates are; nothing is copied and no warning is logged. *)
Theorem worker_rejects_bad_image_url (request : value) :
  get request "target" = VStr "offscreen" ->
  get request "action" = VStr "cropAndCopy" ->
  (forall url, get request "dataUrl" = VStr url -> prefix "data:image/" url = false) ->
  replies (fst (Offscreen.onMessage h request))
  = [failure_reply "Offscreen: Error - Invalid or missing dataUrl."]
  /\ clipboard_writes (fst (Offscreen.onMessage h request)) = []
  /\ warnings (fst (Offscreen.onMessage h request)) = [].
Proof.
  intros Ht Ha Hurl.
  destruct (onMessage_cropAndCopy request Ht Ha) as [_ Hobs].
  assert (G1 : negb (truthy (get request "dataUrl")) || negb (typeof (get request "dataUrl") =? "string")
               || negb (Offscreen.starts_with (get request "dataUrl") "data:image/") = true).
  { destruct (get request "dataUrl") as [| | | | url | |]; try reflexivity.
    - simpl. destruct b; reflexivity.
    - simpl. apply orb_true_r.
    - simpl. rewrite (Hurl url eq_refl). apply orb_true_r. }
  destruct (cropAndCopy_rejected request) as [e [He Herr]].
  { cbv zeta. rewrite G1. reflexivity. }
  cbv zeta in Herr. rewrite (Herr G1) in He. rewrite <- Hobs in He.
  apply observed_parts in He. destruct He as (-> & -> & _ & ->). auto.
Qed.

(** The raster of the Blob [cropImage] yields. *)
Lemma cropImage_raster (dataUrl : string) (x y width height : Q) (b : blob) :
  snd (Offscreen.cropImage h dataUrl x y width height) = inl b ->
  raster_width b = Z.max 1 (Math_round width) /\ raster_height b = Z.max 1 (Math_round height).
Proof.
  unfold Offscreen.cropImage, bind, try_catch, when, throw_if, emit, ret, throw.
  split_paths; intros [= <-]; auto.
Qed.

Lemma cropImage_errors (dataUrl : string) (x y width height : Q) (err : error) :
  snd (Offscreen.cropImage h dataUrl x y width height) = inr err ->
  prefix "Source dimensions" (err_message err) = false.
Proof.
  unfold Offscreen.cropImage, bind, try_catch, when, throw_if, emit, ret, throw.
  assert (Hpos : (Z.max 1 (Math_round width) <=? 0)%Z || (Z.max 1 (Math_round height) <=? 0)%Z = false).
  { apply orb_false_intro; apply Z.leb_gt; lia. }
  cbv zeta. rewrite Hpos.
  split_paths; intros [= <-]; reflexivity.
Qed.

(** X6. The test of line 178 never fires: whatever the input and the
    document, [cropImage] yields a Blob of a raster of at least 1 x 1 pixels
    or rejects with another error than the one of line 179. *)
Theorem crop_dimension_guard_never_fires (dataUrl : string) (x y width height : Q) :
  match snd (Offscreen.cropImage h dataUrl x y width height) with
  | inl b => (1 <= raster_width b)%Z /\ (1 <= raster_height b)%Z
  | inr err => prefix "Source dimensions" (err_message err) = false
  end.
Proof.
  destruct (snd (Offscreen.cropImage h dataUrl x y width height)) as [b|err] eqn:E.
  - apply cropImage_raster in E. destruct E as [-> ->]. lia.
  - now apply cropImage_errors in E.
Qed.

End WorkerReplies.

(** ** The size of the raster *)

Lemma Math_round_near (q : Q) :
  q - (1 # 2) < inject_Z (Math_round q) /\ inject_Z (Math_round q) <= q + (1 # 2).
Proof.
  unfold Math_round. split.
  - pose proof (Qlt_floor (q + (1 # 2))) as H.
    rewrite inject_Z_plus in H.
    apply (Qplus_lt_l _ _ 1).
    setoid_replace (q - (1 # 2) + 1) with (q + (1 # 2)) by ring. exact H.
  - apply Qfloor_le.
Qed.

Lemma Math_round_integer (n : Z) (q : Q) : q == inject_Z n -> Math_round q = n.
Proof.
  intro Hq. unfold Math_round. rewrite Hq.
  assert (H1 : (n <= Qfloor (inject_Z n + (1 # 2)))%Z).
  { rewrite <- (Qfloor_Z n) at 1. apply Qfloor_resp_le.
    rewrite <- (Qplus_0_r (inject_Z n)) at 1. apply Qplus_le_r. discriminate. }
  assert (H2 : (Qfloor (inject_Z n + (1 # 2)) < n + 1)%Z).
  { rewrite Zlt_Qlt. eapply Qle_lt_trans; [apply Qfloor_le|].
    rewrite inject_Z_plus. apply Qplus_lt_r. reflexivity. }
  lia.
Qed.

Lemma Math_round_positive (q : Q) : (1 # 2) <= q -> (1 <= Math_round q)%Z.
Proof.
  intro Hq. unfold Math_round.
  assert (H : (Qfloor 1 <= Qfloor (q + (1 # 2)))%Z).
  { apply Qfloor_resp_le. apply Qle_trans with ((1 # 2) + (1 # 2)); [discriminate|].
    now apply Qplus_le_l. }
  exact H.
Qed.

Section WorkerRaster.
Context {NF : NumberFormat}.
Variable h : Offscreen.host.

(** X7. The raster [cropImage] produces is as wide as the requested width
    rounded to the nearest integer: within half a pixel of a request of at
    least half a pixel, and exactly the request when that is a positive
    integer; and so for the height. *)
Theorem crop_raster_is_nearest (dataUrl : string) (x y width height : Q) (b : blob) :
  snd (Offscreen.cropImage h dataUrl x y width height) = inl b ->
  ((1 # 2) <= width ->
   width - (1 # 2) < inject_Z (raster_width b) /\ inject_Z (raster_width b) <= width + (1 # 2))
  /\ ((1 # 2) <= height ->
      height - (1 # 2) < inject_Z (raster_height b) /\ inject_Z (raster_height b) <= height + (1 # 2))
  /\ (forall n, (1 <= n)%Z -> width == inject_Z n -> raster_width b = n)
  /\ (forall n, (1 <= n)%Z -> height == inject_Z n -> raster_height b = n).
Proof.
  intro Hb. apply cropImage_raster in Hb. destruct Hb as [-> ->].
  repeat split.
  - rewrite Z.max_r by now apply Math_round_positive. apply Math_round_near.
  - rewrite Z.max_r by now apply Math_round_positive. apply Math_round_near.
  - rewrite Z.max_r by now apply Math_round_positive. apply Math_round_near.
  - rewrite Z.max_r by now apply Math_round_positive. apply Math_round_near.
  - intros n Hn Hw. rewrite (Math_round_integer n width Hw). lia.
  - intros n Hn Hh. rewrite (Math_round_integer n height Hh). lia.
Qed.

End WorkerRaster.

(** ** The coordinator: what it reports *)

Section Reports.
Import Async Runtime Observe Background.
Context {NF : NumberFormat}.

Lemma story_app (t d : list entry) :
  story (t ++ d)
  = (replies (effects_in t) ++ replies (effects_in d),
     notifications (effects_in t) ++ notifications (effects_in d),
     sent_messages t ++ sent_messages d,
     capture_answers t ++ capture_answers d,
     message_answers t ++ message_answers d)%list.
Proof.
  unfold story, effects_in, sent_messages, capture_answers, message_answers, replies, notifications.
  now rewrite !flat_map_app.
Qed.

Lemma story_silent (t d : list entry) : story d = ([], [], [], [], []) -> story (t ++ d) = story t.
Proof.
  intro Hd. rewrite story_app. unfold story in Hd. injection Hd as -> -> -> -> ->.
  now rewrite !app_nil_r.
Qed.

Lemma story_after_silent (t d : list entry) :
  story t = ([], [], [], [], []) -> story (t ++ d) = story d.
Proof.
  intro Ht. rewrite story_app. unfold story in Ht. injection Ht as -> -> -> -> ->. reflexivity.
Qed.

Lemma lifecycle_untold {A : Type} (who : nat) (le : value) (p : prog A) :
  lifecycle_only p ->
  forall t, every_path who le p (fun t' _ => story t' = story t) t.
Proof.
  induction p; simpl; intros Hl t; try reflexivity.
  - destruct Hl as [Hev Hl]. destruct ev; try contradiction.
    eapply every_path_weaken; [|apply IHp; exact Hl].
    intros t' o ->. now apply story_silent.
  - auto.
  - destruct Hl as [Hc Hl].
    split; [apply story_silent; destruct c; try contradiction; reflexivity|]. intro s.
    eapply every_path_weaken; [|apply H; apply Hl].
    intros t' o ->. apply story_silent. destruct c; try contradiction; reflexivity.
  - intro n. eapply every_path_weaken; [|apply H; apply Hl].
    intros t' o ->. now apply story_silent.
  - split; [reflexivity|]. intro s. eapply every_path_weaken; [|apply H; apply Hl].
    intros t' o ->. now apply story_silent.
  - intro m. apply H, Hl.
  - auto.
  - apply H, Hl.
Qed.

Variable v : variant.
Variable e : env.

Ltac told Hstory :=
  unfold explained; rewrite <- ?app_assoc; rewrite (story_after_silent _ _ Hstory); simpl.

Lemma captureArea_explained (who : nat) (le request sender : value) :
  every_path who le (captureArea v e request sender) (explained le request) [].
Proof.
  unfold captureArea, try_catch, bind, await_async.
  do 3 apply every_path_cases.
  eapply every_path_weaken; [|apply lifecycle_untold, setup_lifecycle_only].
  intros t o Hstory.
  change (story []) with (@nil value, @nil (string * value), @nil value, @nil settled, @nil settled)
    in Hstory.
  assert (Hreport : forall err t', story t' = ([], [], [], [], []) ->
                                   every_path who le (report_error err) (explained le request) t').
  { intros err t' Ht'. unfold report_error, bind, emit. simpl. told Ht'. unfold error_report.
    split; [reflexivity|]. split; [reflexivity|]. exists err. split; reflexivity. }
  destruct o as [[]|err|]; [|exact (Hreport err t Hstory)|].
  2:{ unfold explained. rewrite Hstory. auto. }
  simpl. unfold capture_and_crop, await_call, last_error, bind, emit. simpl.
  split; [told Hstory; auto|].
  intros [dataUrl|err]; simpl.
  { destruct (truthy le || negb (truthy dataUrl)) eqn:Ecap; simpl.
    { unfold report_error, bind, emit. simpl. told Hstory. rewrite Ecap. unfold error_report. auto. }
    split; [told Hstory; rewrite Ecap; auto|].
    intros [r|err]; simpl.
    2:{ unfold report_error, bind, emit. simpl. told Hstory. rewrite Ecap. unfold error_report. auto. }
    pose proof Ecap as Ecap'.
    apply orb_false_elim in Ecap'. destruct Ecap' as [Ele Eurl].
    rewrite Ele. simpl.
    destruct (truthy (and_then r (get r "success"))) eqn:Eok; simpl.
    - told Hstory. rewrite Ecap, Eok. auto.
    - told Hstory. rewrite Ecap, Eok. auto. }
  unfold report_error, bind, emit. simpl. told Hstory. unfold error_report. auto.
Qed.

(** What a run of the handling has logged is [explained]. *)
Lemma run_explained (request sender : value) (who : nat) (w : world) (d : list entry) :
  log (snd (run who (captureArea v e request sender) w)) = (log w ++ d)%list ->
  explained (lastError w) request d (fst (run who (captureArea v e request sender) w)).
Proof.
  intro Hlog.
  destruct (run_every_path who (captureArea v e request sender)
              (explained (lastError w) request) [] w
              (captureArea_explained who (lastError w) request sender)) as [d' [Hlog' Hd]].
  rewrite Hlog in Hlog'. apply app_inv_head in Hlog'. subst d'. exact Hd.
Qed.

Lemma falsy_has_no_message (le : value) : truthy le = false -> get le "message" = VUndefined.
Proof. destruct le; simpl; try reflexivity; discriminate. Qed.

(** X8. A capture that fails is reported and nothing is sent to the worker:
    with the message of the rejection when [captureVisibleTab] rejects, with
    ['Failed to capture tab: No dataUrl received'] when it gives no image
    ([chrome.runtime.lastError] not being set). *)
Theorem capture_failure_is_reported (request sender : value) (who : nat) (w : world)
        (d : list entry) (a : settled) :
  log (snd (run who (captureArea v e request sender) w)) = (log w ++ d)%list ->
  capture_answers d = [a] ->
  match a with
  | Rejected err =>
      fst (run who (captureArea v e request sender) w) = Returned tt
      /\ replies (effects_in d) = [failure_reply ("Background: " ++ message_or_default err)]
      /\ notifications (effects_in d) = [("Screenshot Error", VStr (message_or_default err))]
      /\ sent_messages d = []
  | Fulfilled dataUrl =>
      truthy (lastError w) = false ->
      truthy dataUrl = false ->
      fst (run who (captureArea v e request sender) w) = Returned tt
      /\ replies (effects_in d)
         = [failure_reply "Background: Failed to capture tab: No dataUrl received"]
      /\ notifications (effects_in d)
         = [("Screenshot Error", VStr "Failed to capture tab: No dataUrl received")]
      /\ sent_messages d = []
  end.
Proof.
  intros Hlog Hcap. pose proof (run_explained request sender who w d Hlog) as Hd.
  unfold explained, story in Hd. rewrite Hcap in Hd.
  destruct (fst (run who (captureArea v e request sender) w)) as [[]|err'|].
  - destruct a as [dataUrl|err].
    + intros Hle Hurl. rewrite Hle, Hurl in Hd. simpl in Hd.
      rewrite (falsy_has_no_message _ Hle) in Hd. simpl in Hd.
      destruct Hd as (Hms & _ & Hrs & Hns). repeat split; assumption.
    + destruct Hd as (Hms & _ & Hrs & Hns). repeat split; assumption.
  - contradiction.
  - destruct a as [dataUrl|err].
    + intros Hle Hurl. rewrite Hle, Hurl in Hd. simpl in Hd. destruct Hd as (_ & _ & _ & Hd).
      discriminate Hd.
    + destruct Hd as (_ & _ & _ & []).
Qed.

(** X9. When the crop request is not answered (the message channel fails),
    the handling ends and reports the message of the rejection, as reply and
    as notification. *)
Theorem channel_failure_is_reported (request sender : value) (who : nat) (w : world)
        (d : list entry) (err : error) :
  log (snd (run who (captureArea v e request sender) w)) = (log w ++ d)%list ->
  message_answers d = [Rejected err] ->
  fst (run who (captureArea v e request sender) w) = Returned tt
  /\ replies (effects_in d) = [failure_reply ("Background: " ++ message_or_default err)]
  /\ notifications (effects_in d) = [("Screenshot Error", VStr (message_or_default err))].
Proof.
  intros Hlog Hmsg. pose proof (run_explained request sender who w d Hlog) as Hd.
  unfold explained, story in Hd. rewrite Hmsg in Hd.
  destruct (fst (run who (captureArea v e request sender) w)) as [[]|err'|].
  - destruct (capture_answers d) as [|[dataUrl|err0] [|]]; try contradiction.
    + destruct Hd as (_ & Hws & _). discriminate Hws.
    + destruct (truthy (lastError w) || negb (truthy dataUrl)).
      * destruct Hd as (_ & Hws & _). discriminate Hws.
      * destruct Hd as (_ & Hrs & Hns). auto.
    + destruct Hd as (_ & Hws & _). discriminate Hws.
  - contradiction.
  - destruct Hd as (_ & _ & Hws & _). discriminate Hws.
Qed.

(** X10. The reply [{success: true}] is sent exactly when the worker has
    answered the crop request with a truthy [success]; the notification is
    then ['Screenshot Copied!'], and the one crop request sent had the
    coordinates of the request. *)
Theorem success_reported_iff_worker_succeeded (request sender : value) (who : nat) (w : world)
        (d : list entry) :
  log (snd (run who (captureArea v e request sender) w)) = (log w ++ d)%list ->
  (replies (effects_in d) = [success_reply]
   <-> exists r, message_answers d = [Fulfilled r] /\ truthy (and_then r (get r "success")) = true)
  /\ (replies (effects_in d) = [success_reply] ->
      notifications (effects_in d)
      = [("Screenshot Copied!", VStr "The selected area has been copied to your clipboard.")]
      /\ exists dataUrl, sent_messages d = [cropAndCopy_message dataUrl (get request "coords")]).
Proof.
  intros Hlog. pose proof (run_explained request sender who w d Hlog) as Hd.
  unfold explained, story, error_report in Hd.
  destruct (fst (run who (captureArea v e request sender) w)) as [[]|err'|].
  - destruct (capture_answers d) as [|[dataUrl|err0] [|]]; try contradiction.
    + destruct Hd as (_ & -> & err & -> & _).
      split; [split; [discriminate | intros [r [Hr _]]; discriminate Hr] | discriminate].
    + destruct (truthy (lastError w) || negb (truthy dataUrl)).
      * destruct Hd as (_ & -> & -> & _).
        split; [split; [discriminate | intros [r [Hr _]]; discriminate Hr] | discriminate].
      * destruct Hd as (Hms & Hd).
        destruct (message_answers d) as [|[r|err] [|]]; try contradiction.
        -- destruct (truthy (and_then r (get r "success"))) eqn:Eok.
           ++ destruct Hd as (-> & ->). rewrite Hms. split; [split; eauto | eauto].
           ++ destruct Hd as (-> & ->).
              split; [split; [discriminate | intros [r' [[= <-] Hr]]; congruence] | discriminate].
        -- destruct Hd as (-> & ->).
           split; [split; [discriminate | intros [r [Hr _]]; discriminate Hr] | discriminate].
    + destruct Hd as (_ & -> & -> & _).
      split; [split; [discriminate | intros [r [Hr _]]; discriminate Hr] | discriminate].
  - contradiction.
  - destruct Hd as (-> & _ & -> & _).
    split; [split; [discriminate | intros [r [Hr _]]; discriminate Hr] | discriminate].
Qed.

End Reports.

(** ** The coordinator: the offscreen document *)

Section SetupFailure.
Import Async Runtime Observe Background.
Context {NF : NumberFormat}.
Variable v : variant.
Variable e : env.



Lemma two_calls_marker (existing : bool) (lastErr : value) (sc : list settled) :
  check marker_cleared 30 (two_calls v e (initial existing lastErr sc)) = true.
Proof.
  destruct v; destruct e as [[] []]; destruct existing; destruct sc as [|[x|x] [|[y|y] rest]];
    vm_compute; reflexivity.
Qed.

End SetupFailure.

Section Lifecycle.
Import Async Runtime Observe Background.
Context {NF : NumberFormat}.
Variable v : variant.
Variable e : env.

(** X12. The coordinator's listener starts no handling for the other
    messages: a [captureArea] request without [sender.tab] gets the single
    reply [{success: false, error: 'Background: Internal error - missing tab
    context.'}] and no notification; a message with another [action] gets no
    reply; the listener returns [false] for both. *)
Theorem coordinator_listener_other_messages (request sender : value) :
  (get request "action" = VStr "captureArea" ->
   truthy (get sender "tab") = false ->
   replies (fst (fst (onMessage v e request sender)))
   = [failure_reply "Background: Internal error - missing tab context."]
   /\ notifications (fst (fst (onMessage v e request sender))) = []
   /\ snd (fst (onMessage v e request sender)) = false
   /\ snd (onMessage v e request sender) = None)
  /\ (get request "action" <> VStr "captureArea" ->
      replies (fst (fst (onMessage v e request sender))) = []
      /\ notifications (fst (fst (onMessage v e request sender))) = []
      /\ snd (fst (onMessage v e request sender)) = false
      /\ snd (onMessage v e request sender) = None).
Proof.
  unfold onMessage. split.
  - intros Ha Htab. rewrite Ha, Htab. simpl. auto.
  - intro Ha. rewrite (is_string_false _ _ Ha). simpl. auto.
Qed.




(** X16. On every path, whatever the platform answers,
    [closeOffscreenDocument] lets no rejection of [closeDocument] escape:
    the second variant never throws, and the first throws only a rejection
    of [getContexts]. *)
Theorem close_swallows_rejections (who : nat) (le : value) :
  every_path who le (closeOffscreenDocument v e)
    (fun t o => match o with
                | Threw err => v = V1 /\ In (Answered who GetContexts (Rejected err)) t
                | _ => True
                end) [].
Proof.
  unfold closeOffscreenDocument, hasOffscreenDocument, query_contexts, try_catch, await_async,
    await_call, bind, emit.
  destruct v; destruct e as [[] []]; simpl; auto.
  all: split; [exact I|].
  all: intros [a|err]; simpl; auto.
  all: try (destruct (truthy (and_then a (VBool (gt_zero (get a "length"))))); simpl; auto).
  all: try (split; [exact I|]; intros [a'|err']; simpl; auto).
Qed.

End Lifecycle.

Section Exclusive.
Context {NF : NumberFormat}.
Variable e : env.


Variable v : variant.

(** X18. In every interleaving of two calls of
    [setupOffscreenDocumentForClipboard], in both variants, once both calls
    are over (returned or thrown) [creatingOffscreenPromise] is [null]. *)
Theorem marker_cleared_when_calls_are_over (existing : bool) (lastErr : value)
        (sc : list settled) (s : pool) :
  reachable (two_calls v e (initial existing lastErr sc)) s ->
  (forall i th, nth_error (threads s) i = Some th -> exists o, th = Finished o) ->
  marker (world_of s) = None.
Proof.
  intros [schedule Hexec] Hover.
  destruct (check_sound _ _ _ _ _ (two_calls_marker v e existing lastErr sc) Hexec) as [HP _].
  unfold marker_cleared in HP.
  assert (Hall : all_finished s = true).
  { unfold all_finished. apply forallb_forall. intros th Hin.
    apply In_nth_error in Hin. destruct Hin as [i Hi].
    destruct (Hover i th Hi) as [o ->]. reflexivity. }
  rewrite Hall in HP. simpl in HP. destruct (marker (world_of s)); [discriminate|reflexivity].
Qed.

End Exclusive.

(** ** Interleaved handlings, each on its own path *)

Section Projection.
Import Async Runtime Observe.
Variable le : value.
Variable Q : nat -> list entry -> outcome unit -> Prop.

Lemma own_app (i : nat) (t d : list entry) : own i (t ++ d) = (own i t ++ own i d)%list.
Proof. apply filter_app. Qed.

Lemma own_add (i j : nat) (x : entry) (w : world) :
  who_of x = i ->
  own j (log (add x w)) = if Nat.eqb i j then (own j (log w) ++ [x])%list else own j (log w).
Proof.
  intros <-. simpl. rewrite own_app. simpl.
  destruct (Nat.eqb (who_of x) j); [reflexivity | apply app_nil_r].
Qed.

Lemma advance_on_path (i : nat) (p : prog unit) :
  forall w,
    lastError w = le ->
    every_path i le p (Q i) (own i (log w)) ->
    on_path i le (Q i) (fst (advance i p w)) (own i (log (snd (advance i p w))))
    /\ lastError (snd (advance i p w)) = le
    /\ forall j, j <> i -> own j (log (snd (advance i p w))) = own j (log w).
Proof.
  induction p; simpl; intros w Hle Hp.
  - repeat split; auto; discriminate.
  - repeat split; auto; discriminate.
  - destruct (IHp (add (Did i ev) w)) as (H1 & H2 & H3); [exact Hle | |].
    { rewrite (own_add i i) by reflexivity. rewrite Nat.eqb_refl. exact Hp. }
    split; [exact H1|]. split; [exact H2|].
    intros j Hj. rewrite (H3 j Hj). rewrite (own_add i j) by reflexivity.
    apply Nat.eqb_neq in Hj. rewrite Nat.eqb_sym in Hj. now rewrite Hj.
  - auto.
  - destruct Hp as [_ Hp]. split; [|split; [exact Hle|]].
    + intro s. rewrite own_app. simpl. rewrite Nat.eqb_refl.
      rewrite <- app_assoc. apply Hp.
    + intros j Hj. rewrite own_app. simpl.
      apply Nat.eqb_neq in Hj. rewrite Nat.eqb_sym in Hj. rewrite Hj. apply app_nil_r.
  - match goal with
    | |- context [advance i (k ?n) ?w'] => destruct (H n w') as (H1 & H2 & H3)
    end.
    + exact Hle.
    + simpl. rewrite own_app. simpl. rewrite Nat.eqb_refl. apply Hp.
    + split; [exact H1|]. split; [exact H2|].
      intros j Hj. rewrite (H3 j Hj). simpl. rewrite own_app. simpl.
      apply Nat.eqb_neq in Hj. rewrite Nat.eqb_sym in Hj. rewrite Hj. apply app_nil_r.
  - destruct Hp as [_ Hp]. auto.
  - apply H; auto.
  - apply (IHp (set_marker m w)); auto.
  - apply H; auto. rewrite Hle. exact Hp.
Qed.

Lemma nth_error_update_other {X : Type} (l : list X) :
  forall i j x, i <> j -> nth_error (update i x l) j = nth_error l j.
Proof.
  induction l as [|z l IH]; intros [|i] [|j] x Hij; simpl; try reflexivity; try congruence.
  apply IH. congruence.
Qed.

Lemma nth_error_update_same {X : Type} (l : list X) :
  forall i x y, nth_error (update i x l) i = Some y -> y = x.
Proof.
  induction l as [|z l IH]; intros [|i] x y; simpl; try discriminate.
  - now intros [= <-].
  - apply IH.
Qed.

Lemma continue_on_path (i : nat) (p : prog unit) (w : world) (s s' : pool) :
  all_on_path le Q s ->
  lastError w = le ->
  (forall j, j <> i -> own j (log w) = own j (log (world_of s))) ->
  every_path i le p (Q i) (own i (log w)) ->
  continue i p w s = Some s' ->
  all_on_path le Q s'.
Proof.
  intros [_ Hs] Hle Hother Hp. unfold continue.
  destruct (advance_on_path i p w Hle Hp) as (H1 & H2 & H3).
  destruct (advance i p w) as [t w']. simpl in *. intros [= <-]. split; [exact H2|].
  simpl. intros j th Hth. destruct (Nat.eq_dec i j) as [<- | Hij].
  - apply nth_error_update_same in Hth. subst th. exact H1.
  - rewrite nth_error_update_other in Hth by exact Hij.
    rewrite H3 by congruence. rewrite Hother by congruence. now apply Hs.
Qed.

Lemma step_on_path (l : label) (s s' : pool) :
  all_on_path le Q s -> step l s = Some s' -> all_on_path le Q s'.
Proof.
  intros Hs. pose proof Hs as [Hle Hth]. destruct l as [i|i|n|i]; simpl.
  - destruct (nth_error (threads s) i) as [[p|p|o]|] eqn:Ei; try discriminate.
    destruct (quiet s); [|discriminate].
    apply continue_on_path; auto. exact (Hth i _ Ei).
  - destruct (nth_error (threads s) i) as [[p|p|o]|] eqn:Ei; try discriminate.
    destruct p as [| | | | c k | | | | |]; try discriminate.
    destruct (quiet s); [|discriminate].
    destruct (answer c (world_of s)) as [[a w']|] eqn:Ea; [|discriminate].
    apply answer_keeps in Ea. destruct Ea as [Hlog Hle'].
    apply continue_on_path; auto.
    + simpl. congruence.
    + intros j Hj. rewrite (own_add i j) by reflexivity.
      apply Nat.eqb_neq in Hj. rewrite Nat.eqb_sym in Hj. rewrite Hj. now rewrite Hlog.
    + rewrite (own_add i i) by reflexivity. rewrite Nat.eqb_refl. rewrite Hlog.
      exact (Hth i _ Ei a).
  - destruct (nth_error (promises (world_of s)) n) as [[a|]|]; try discriminate.
    destruct (quiet s); [|discriminate].
    destruct (settle_creation (world_of s)) as [[a w']|] eqn:Es; [|discriminate].
    apply settle_creation_keeps in Es. destruct Es as [Hlog Hle'].
    intros [= <-]. split; simpl; [congruence|]. rewrite Hlog. exact Hth.
  - destruct (nth_error (threads s) i) as [[p|p|o]|] eqn:Ei; try discriminate.
    destruct p as [| | | k | | | n k | | |]; try discriminate.
    + apply continue_on_path; auto. exact (Hth i _ Ei).
    + destruct (settled_promise (world_of s) n) as [a|]; [|discriminate].
      apply continue_on_path; auto.
      * intros j Hj. rewrite (own_add i j) by reflexivity.
        apply Nat.eqb_neq in Hj. rewrite Nat.eqb_sym in Hj. now rewrite Hj.
      * rewrite (own_add i i) by reflexivity. rewrite Nat.eqb_refl.
        exact (Hth i _ Ei a).
Qed.

Lemma exec_on_path (schedule : list label) :
  forall s s', all_on_path le Q s -> exec schedule s = Some s' -> all_on_path le Q s'.
Proof.
  induction schedule as [|l rest IH]; simpl; intros s s' Hs He.
  - now injection He as <-.
  - destruct (step l s) as [s1|] eqn:Hstep; [|discriminate].
    eapply IH; [|exact He]. eapply step_on_path; eauto.
Qed.

End Projection.

Section Handlings.
Import Async Runtime Observe Background.
Context {NF : NumberFormat}.
Variable v : variant.
Variable e : env.

(** X19. However many handlings of [captureArea] requests are interleaved,
    and whatever the platform answers, a handling that is over has returned
    normally, has sent exactly one reply and shown exactly one notification
    of its own, and every crop request it sent had the coordinates of its
    request. *)
Theorem interleaved_handlings_reply_once (requests : list (value * value)) (w : world)
        (s : pool) (i : nat) (request sender : value) (o : outcome unit) :
  log w = [] ->
  reachable (handlings v e requests w) s ->
  nth_error requests i = Some (request, sender) ->
  nth_error (threads s) i = Some (Finished o) ->
  o = Returned tt
  /\ List.length (replies (effects_in (own i (log (world_of s))))) = 1%nat
  /\ List.length (notifications (effects_in (own i (log (world_of s))))) = 1%nat
  /\ Forall (fun m => exists dataUrl, m = cropAndCopy_message dataUrl (get request "coords"))
            (sent_messages (own i (log (world_of s)))).
Proof.
  intros Hlog [schedule Hexec] Hreq Hth.
  set (Q := fun j => match nth_error requests j with
                     | Some rs => handled (lastError w) (fst rs)
                     | None => fun _ _ => True
                     end).
  assert (H0 : all_on_path (lastError w) Q (handlings v e requests w)).
  { split; [reflexivity|]. simpl. rewrite Hlog. intros j th Hj.
    rewrite nth_error_map in Hj. unfold Q.
    destruct (nth_error requests j) as [[req snd]|]; [|discriminate].
    injection Hj as <-. simpl. apply captureArea_paths. }
  destruct (exec_on_path _ Q schedule _ _ H0 Hexec) as [_ Hs].
  specialize (Hs i _ Hth). simpl in Hs. unfold Q in Hs. rewrite Hreq in Hs. simpl in Hs.
  unfold handled, handled_view, view in Hs.
  destruct Hs as [Hover [Hsent Hs]]. destruct o as [[]|err|].
  - destruct Hs as [[reply [note [-> ->]]] _]. auto.
  - contradiction.
  - now contradiction Hover.
Qed.

End Handlings.

(** ** The overlays *)

Lemma Qabs_zero_iff (q : Q) : Qabs q <= 0 <-> q == 0.
Proof.
  split.
  - intro H. apply Qle_antisym.
    + eapply Qle_trans; [apply Qle_Qabs | exact H].
    + setoid_replace q with (- - q) by (symmetry; apply Qopp_involutive).
      setoid_replace 0 with (- 0) by reflexivity.
      apply Qopp_le_compat.
      eapply Qle_trans; [|exact H]. rewrite <- Qabs_opp. apply Qle_Qabs.
  - intros ->. discriminate.
Qed.

Lemma Qminus_zero_iff (a b : Q) : a - b == 0 <-> a == b.
Proof.
  split; intro H.
  - setoid_replace a with (a - b + b) by ring. rewrite H. ring.
  - rewrite H. ring.
Qed.

(** X20. Releasing the button, the overlay of [content_script.js] sends at
    most one message, and none exactly when the pointer is where it went
    down in one of the two directions (a click, or a drag along a line). *)
Theorem overlay_sends_iff_moved (dpr : Q) (ev : Overlay.mouse_event) (st : Overlay.state) :
  Overlay.isDragging st = true ->
  (snd (Overlay.mouseup dpr ev st) = []
   <-> (Overlay.clientX ev == Overlay.startX st \/ Overlay.clientY ev == Overlay.startY st))
  /\ (snd (Overlay.mouseup dpr ev st) = []
      \/ exists m, snd (Overlay.mouseup dpr ev st) = [Send m]).
Proof.
  intro Hdrag. unfold Overlay.mouseup, Overlay.region. rewrite Hdrag. cbn [negb].
  assert (Hzero : forall a b, Qle_bool (Qabs (a - b)) 0 = true <-> a == b).
  { intros a b. rewrite Qle_bool_iff, Qabs_zero_iff. apply Qminus_zero_iff. }
  pose proof (Hzero (Overlay.clientX ev) (Overlay.startX st)) as Hx.
  pose proof (Hzero (Overlay.clientY ev) (Overlay.startY st)) as Hy.
  destruct (Qle_bool (Qabs (Overlay.clientX ev - Overlay.startX st)) 0);
    destruct (Qle_bool (Qabs (Overlay.clientY ev - Overlay.startY st)) 0); cbn [negb andb snd].
  - split; [split; auto | auto]. intros _. left. now apply Hx.
  - split; [split; auto | auto]. intros _. left. now apply Hx.
  - split; [split; auto | auto]. intros _. right. now apply Hy.
  - split; [split; [discriminate|] | eauto].
    intros [H|H]; [apply Hx in H | apply Hy in H]; discriminate.
Qed.

(** X21. After the button has been released, a further [mouseup] sends
    nothing and a [mousemove] changes nothing, until the button goes down
    again. *)
Theorem overlay_one_message_per_gesture (dpr dpr' : Q) (up again : Overlay.mouse_event)
        (moved : Overlay.mouse_event) (st : Overlay.state) :
  let st' := fst (Overlay.mouseup dpr up st) in
  Overlay.mouseup dpr' again st' = (st', [])
  /\ Overlay.mousemove moved st' = st'.
Proof.
  unfold Overlay.mouseup, Overlay.mousemove, Overlay.region.
  destruct (Overlay.isDragging st) eqn:Hdrag; cbn [negb].
  - destruct (negb _ && negb _); cbn [fst Overlay.isDragging Overlay.cleanup negb]; auto.
  - cbn [fst]. rewrite Hdrag. cbn [negb]. auto.
Qed.

Lemma span (a b : Q) :
  0 <= Qabs (b - a) /\ Qmin a b <= a /\ Qmin a b <= b /\ Qmin a b + Qabs (b - a) == Qmax a b.
Proof.
  split; [apply Qabs_nonneg|]. split; [apply Q.le_min_l|]. split; [apply Q.le_min_r|].
  destruct (Qlt_le_dec b a) as [Hlt|Hle].
  - apply Qlt_le_weak in Hlt.
    rewrite (Q.min_r a b Hlt), (Q.max_l a b Hlt).
    rewrite Qabs_neg.
    + ring.
    + setoid_replace 0 with (a - a) by ring. unfold Qminus. now apply Qplus_le_l.
  - rewrite (Q.min_l a b Hle), (Q.max_r a b Hle).
    rewrite Qabs_pos.
    + ring.
    + setoid_replace 0 with (a - a) by ring. unfold Qminus. now apply Qplus_le_l.
Qed.

(** X22. The region sent on release at a point is the box shown by a
    [mousemove] to that point, field by field; it has no negative size, and
    spans from the smaller to the larger of the two coordinates in each
    direction. *)
Theorem overlay_sends_what_it_shows (ev : Overlay.mouse_event) (st : Overlay.state) :
  Overlay.isDragging st = true ->
  let '(bx, by_, bw, bh) := Overlay.box (Overlay.mousemove ev st) in
  let '(x, y, width, height) := Overlay.region st ev in
  (bx == x /\ by_ == y /\ bw == width /\ bh == height)
  /\ (0 <= width /\ x <= Overlay.startX st /\ x <= Overlay.clientX ev
      /\ x + width == Qmax (Overlay.startX st) (Overlay.clientX ev))
  /\ (0 <= height /\ y <= Overlay.startY st /\ y <= Overlay.clientY ev
      /\ y + height == Qmax (Overlay.startY st) (Overlay.clientY ev)).
Proof.
  intro Hdrag. unfold Overlay.mousemove, Overlay.region. rewrite Hdrag. cbn [negb Overlay.box].
  split; [|split].
  - repeat split; try reflexivity; apply Q.min_comm.
  - apply span.
  - apply span.
Qed.

(** X23. After a drag the selector is released (the flag
    [window.isAreaSelectorActive] reset, overlay and Escape listener removed)
    on every way out: at once when no message is sent; when a message is
    sent, on the response, whatever it is, or on Escape; until then the flag
    is set and another injection of the script does nothing. *)
Theorem overlay_released_on_every_way_out (dpr : Q) (ev : Overlay.mouse_event) (st : Overlay.state)
        (lastError response : value) :
  Overlay.isDragging st = true ->
  Overlay.active st = true ->
  let st' := fst (Overlay.mouseup dpr ev st) in
  let released := fun s : Overlay.state =>
    Overlay.active s = false /\ Overlay.attached s = false /\ Overlay.esc_listener s = false in
  match snd (Overlay.mouseup dpr ev st) with
  | [] => released st'
  | _ => Overlay.active st' = true /\ Overlay.inject (Overlay.active st') = None
         /\ released (fst (Overlay.on_response lastError response st'))
         /\ released (Overlay.handleEscKey "Escape" st')
  end.
Proof.
  intros Hdrag Hactive. unfold Overlay.mouseup, Overlay.region. rewrite Hdrag. cbn [negb].
  destruct (negb _ && negb _); cbn [fst snd].
  - cbn. rewrite Hactive. repeat split.
  - cbn. repeat split.
Qed.

(** ** The icon, the popup and the [areaSelected] coordinator *)

(** X24. A click on the icon injects [content_script.js] into the tab
    exactly when the tab has an id and its URL starts with ['http://'] or
    ['https://'], and shows the ['Action Failed'] notification exactly when
    the tab has an id and its URL does not; never both, and a failed
    injection is only logged. *)
Theorem icon_click_injects_only_web_pages (injection : option error) (t : Scripting.tab) :
  let steps := Scripting.onClicked injection t in
  let web := Scripting.url_starts_with t "http://" || Scripting.url_starts_with t "https://" in
  Scripting.injected steps
  = (if negb (Scripting.no_id t) && web then [(Scripting.tab_id t, "content_script.js")] else [])
  /\ notifications (Scripting.effects_of steps)
     = (if negb (Scripting.no_id t) && negb web
        then [("Action Failed", VStr "Screenshots can only be taken on http or https pages.")]
        else [])
  /\ (Scripting.injected steps = [] \/ notifications (Scripting.effects_of steps) = []).
Proof.
  unfold Scripting.onClicked.
  destruct (Scripting.no_id t); [simpl; auto|].
  destruct (Scripting.url_starts_with t "http://" || Scripting.url_starts_with t "https://").
  - destruct injection; simpl; auto.
  - simpl; auto.
Qed.

(** X25. The popup injects [content.js] only into the first tab of the
    query and only after the stylesheet has been inserted there: with no
    tab, or when [insertCSS] rejects, nothing is injected. *)
Theorem popup_injects_after_stylesheet (tabs : list Scripting.tab) (css : option error) :
  match Scripting.injected (fst (Scripting.onStart tabs css)) with
  | [] => tabs = [] \/ css <> None
  | [(id, file)] =>
      file = "content.js" /\ css = None
      /\ (exists t rest, tabs = t :: rest /\ id = Scripting.tab_id t)
      /\ fst (Scripting.onStart tabs css) = [Scripting.InsertCSS id "selection-style.css";
                                            Scripting.ExecuteScript id "content.js"]
  | _ => False
  end.
Proof.
  destruct tabs as [|t rest]; [simpl; auto|].
  destruct css as [e|]; simpl.
  - right. discriminate.
  - repeat split; eauto.
Qed.

(** X26. The [areaSelected] coordinator never replies and never notifies,
    whatever the message and whatever happens in the pipeline; for a message
    of another type it does nothing at all. *)
Theorem areaSelected_listener_never_answers (h : LegacyBackground.host) (msg : value) :
  replies (LegacyBackground.onMessage h msg) = []
  /\ notifications (LegacyBackground.onMessage h msg) = []
  /\ (get msg "type" <> VStr "areaSelected" -> LegacyBackground.onMessage h msg = []).
Proof.
  unfold LegacyBackground.onMessage, LegacyBackground.cropImage.
  destruct (is_string (get msg "type") "areaSelected") eqn:Et.
  - split; [|split].
    + destruct (LegacyBackground.image_loads h); [|reflexivity].
      destruct (LegacyBackground.converted h); [|reflexivity].
      destruct (LegacyBackground.removed h); [|reflexivity].
      destruct (LegacyBackground.clipboard_write h); reflexivity.
    + destruct (LegacyBackground.image_loads h); [|reflexivity].
      destruct (LegacyBackground.converted h); [|reflexivity].
      destruct (LegacyBackground.removed h); [|reflexivity].
      destruct (LegacyBackground.clipboard_write h); reflexivity.
    + intro H. apply is_string_false in H. congruence.
  - auto.
Qed.

(** X27. What the [areaSelected] coordinator writes to the clipboard is the
    answer of the background-removal service, under its own type, after the
    request to the service; that is, only when the image has loaded, the crop
    was encoded and the service answered with success. *)
Theorem areaSelected_copies_service_answer (h : LegacyBackground.host) (msg : value)
        (type : string) (b : blob) :
  In (ClipboardWrite type b) (LegacyBackground.onMessage h msg) ->
  get msg "type" = VStr "areaSelected"
  /\ LegacyBackground.image_loads h = true
  /\ LegacyBackground.converted h <> None
  /\ LegacyBackground.removed h = Some b
  /\ type = blob_type b
  /\ In (Fetch "https://api.remove.bg/v1.0/removebg") (LegacyBackground.onMessage h msg).
Proof.
  unfold LegacyBackground.onMessage, LegacyBackground.cropImage.
  destruct (is_string (get msg "type") "areaSelected") eqn:Et; [|contradiction].
  apply is_string_spec in Et.
  destruct (LegacyBackground.image_loads h); [|contradiction].
  destruct (LegacyBackground.converted h) as [c|]; simpl.
  2:{ intros [H|[H|[]]]; discriminate H. }
  destruct (LegacyBackground.removed h) as [r|]; simpl.
  2:{ intros [H|[H|[H|[]]]]; discriminate H. }
  intros [H|[H|[H|[H|H]]]]; try discriminate H.
  - injection H as <- <-. repeat split; auto. discriminate.
  - destruct (LegacyBackground.clipboard_write h); simpl in H; [contradiction|].
    destruct H as [H|[]]. discriminate H.
Qed.

(** X28. [onMouseUp] of [content.js] sends nothing or the one
    [areaSelected] message, and then resets the overlay (flag, selection box,
    listeners); after it a further [onMouseUp] sends nothing and
    [onMouseMove] changes nothing. *)
Theorem legacy_overlay_one_message_per_gesture (dpr dpr' : Q) (r r' : LegacyOverlay.rect)
        (moved : LegacyOverlay.mouse_event) (st : LegacyOverlay.state) :
  let st' := fst (LegacyOverlay.onMouseUp dpr r st) in
  (snd (LegacyOverlay.onMouseUp dpr r st) = []
   \/ (snd (LegacyOverlay.onMouseUp dpr r st) = [Send (LegacyOverlay.areaSelected_message r dpr)]
       /\ LegacyOverlay.active st' = false
       /\ LegacyOverlay.selectionBox st' = None
       /\ LegacyOverlay.listening st' = false))
  /\ LegacyOverlay.onMouseUp dpr' r' st' = (st', [])
  /\ LegacyOverlay.onMouseMove moved st' = st'.
Proof.
  unfold LegacyOverlay.onMouseUp, LegacyOverlay.onMouseMove.
  destruct (LegacyOverlay.selectionBox st) as [box|] eqn:Ebox; simpl.
  - destruct (LegacyOverlay.isSelecting st) eqn:Esel; simpl.
    + split; [right; auto|auto].
    + rewrite Ebox, Esel. simpl. auto.
  - rewrite Ebox. auto.
Qed.

(** ** From the selection to the clipboard *)

Section EndToEnd.
Context {NF : NumberFormat}.
Variable v : variant.
Variable e : env.
Variable h : Offscreen.host.


End EndToEnd.

(** ** Instances of the further properties *)

Lemma worker_replies_exactly_once_witness :
  exists reply,
    replies (fst (Offscreen.onMessage sample_host (crop_request 0 0 10 10))) = [reply]
    /\ snd (Offscreen.onMessage sample_host (crop_request 0 0 10 10)) = true.
Proof.
  destruct (worker_replies_exactly_once sample_host (crop_request 0 0 10 10) eq_refl eq_refl)
    as [reply [Hreply [Hret _]]].
  exists reply. exact (conj Hreply Hret).
Defined.

Lemma sample_crop_data : crop_data (crop_request 0 0 10 10) sample_url 0 0 10 10.
Proof. unfold crop_data. repeat split. Qed.

Lemma worker_copies_the_crop_witness :
  replies (fst (Offscreen.onMessage sample_host (crop_request 0 0 10 10))) = [success_reply]
  /\ focus_and_copy (fst (Offscreen.onMessage sample_host (crop_request 0 0 10 10)))
     = [Focus; ClipboardWrite "image/png" (mkBlob 100 "image/png" 10 10)].
Proof.
  destruct (worker_copies_the_crop sample_host (crop_request 0 0 10 10) sample_url 0 0 10 10
              (Offscreen.mkImage 20 20) 100%N "image/png"
              eq_refl eq_refl sample_crop_data eq_refl eq_refl eq_refl eq_refl)
    as [Hreply [Hcopy _]].
  exact (conj Hreply Hcopy).
Defined.

Lemma worker_reports_crop_failure_witness :
  replies (fst (Offscreen.onMessage blind_host (crop_request 0 0 10 10)))
  = [failure_reply "Offscreen: Error - Image loading failed in offscreen document. The dataUrl might be malformed or too long."]
  /\ clipboard_writes (fst (Offscreen.onMessage blind_host (crop_request 0 0 10 10))) = [].
Proof.
  exact (proj1 (worker_reports_crop_failure blind_host (crop_request 0 0 10 10) sample_url 0 0 10 10
                  eq_refl eq_refl sample_crop_data) eq_refl).
Defined.

Lemma worker_reports_clipboard_rejection_witness :
  replies (fst (Offscreen.onMessage denying_host (crop_request 0 0 10 10)))
  = [failure_reply "Offscreen: NotAllowedError - Document is not focused."]
  /\ List.length (clipboard_writes (fst (Offscreen.onMessage denying_host (crop_request 0 0 10 10))))
     = 1%nat.
Proof.
  destruct (worker_reports_clipboard_rejection denying_host (crop_request 0 0 10 10) sample_url
              0 0 10 10 (Offscreen.mkImage 20 20) 100%N "image/png"
              (mkError "NotAllowedError" "Document is not focused.")
              eq_refl eq_refl sample_crop_data eq_refl eq_refl eq_refl eq_refl)
    as [Hreply [Hcount _]].
  exact (conj Hreply Hcount).
Defined.

Lemma worker_rejects_bad_image_url_witness :
  replies (fst (Offscreen.onMessage sample_host remote_request))
  = [failure_reply "Offscreen: Error - Invalid or missing dataUrl."]
  /\ clipboard_writes (fst (Offscreen.onMessage sample_host remote_request)) = []
  /\ warnings (fst (Offscreen.onMessage sample_host remote_request)) = [].
Proof.
  apply (worker_rejects_bad_image_url sample_host remote_request eq_refl eq_refl).
  intros url H. injection H as <-. reflexivity.
Defined.

Lemma crop_raster_is_nearest_witness :
  (10 + (1 # 2)) - (1 # 2) < inject_Z 11 /\ inject_Z 11 <= (10 + (1 # 2)) + (1 # 2).
Proof.
  refine (proj1 (crop_raster_is_nearest sample_host sample_url 0 0 (10 + (1 # 2)) 10
                   (mkBlob 100 "image/png" 11 10) eq_refl) _).
  discriminate.
Defined.

Lemma coordinator_listener_other_messages_witness :
  replies (fst (fst (onMessage V1 sample_env sample_request (VObj []))))
  = [failure_reply "Background: Internal error - missing tab context."]
  /\ snd (onMessage V1 sample_env sample_request (VObj [])) = None.
Proof.
  destruct (proj1 (coordinator_listener_other_messages V1 sample_env sample_request (VObj []))
              eq_refl eq_refl) as [Hreply [_ [_ Hnone]]].
  exact (conj Hreply Hnone).
Defined.


Lemma capture_failure_is_reported_witness :
  replies (effects (snd (run 0 (captureArea V1 sample_env sample_request sample_sender)
                             capture_refused)))
  = [failure_reply "Background: Cannot access contents of the page."]
  /\ sent_messages (log (snd (run 0 (captureArea V1 sample_env sample_request sample_sender)
                                  capture_refused))) = [].
Proof.
  destruct (capture_failure_is_reported V1 sample_env sample_request sample_sender O capture_refused
              (log (snd (run 0 (captureArea V1 sample_env sample_request sample_sender)
                             capture_refused)))
              (Rejected (Error "Cannot access contents of the page.")) eq_refl eq_refl)
    as [_ [Hreply [_ Hsent]]].
  exact (conj Hreply Hsent).
Defined.

Lemma channel_failure_is_reported_witness :
  replies (effects (snd (run 0 (captureArea V1 sample_env sample_request sample_sender)
                             channel_closed)))
  = [failure_reply "Background: Could not establish connection. Receiving end does not exist."].
Proof.
  exact (proj1 (proj2 (channel_failure_is_reported V1 sample_env sample_request sample_sender O
                         channel_closed
                         (log (snd (run 0 (captureArea V1 sample_env sample_request sample_sender)
                                        channel_closed)))
                         (Error "Could not establish connection. Receiving end does not exist.")
                         eq_refl eq_refl))).
Defined.

Lemma success_reported_iff_worker_succeeded_witness :
  notifications (effects (snd (run 0 (captureArea V1 sample_env sample_request sample_sender)
                                   (sample_world success_reply))))
  = [("Screenshot Copied!", VStr "The selected area has been copied to your clipboard.")].
Proof.
  destruct (success_reported_iff_worker_succeeded V1 sample_env sample_request sample_sender O
              (sample_world success_reply)
              (log (snd (run 0 (captureArea V1 sample_env sample_request sample_sender)
                             (sample_world success_reply)))) eq_refl) as [_ H].
  exact (proj1 (H eq_refl)).
Defined.

Lemma interleaved_handlings_reply_once_witness :
  List.length (replies (effects_in (own 0 (log (world_of first_handled))))) = 1%nat
  /\ List.length (notifications (effects_in (own 0 (log (world_of first_handled))))) = 1%nat.
Proof.
  assert (Hreach : reachable two_handlings first_handled).
  { exists first_handling_schedule. vm_compute. reflexivity. }
  destruct (interleaved_handlings_reply_once V1 sample_env
              [(sample_request, sample_sender); (sample_request, sample_sender)]
              (sample_world success_reply) first_handled 0 sample_request sample_sender
              (Returned tt) eq_refl Hreach eq_refl eq_refl) as [_ [Hreply [Hnote _]]].
  exact (conj Hreply Hnote).
Defined.




Lemma marker_cleared_when_calls_are_over_witness : marker (world_of overlapped) = None.
Proof.
  assert (Hreach : reachable (two_calls V1 sample_env (initial false VUndefined [Fulfilled VUndefined]))
                             overlapped).
  { exists overlapping_schedule. vm_compute. reflexivity. }
  apply (marker_cleared_when_calls_are_over sample_env V1 false VUndefined [Fulfilled VUndefined]
           overlapped Hreach).
  intros [|[|i]] th Hth; vm_compute in Hth.
  - injection Hth as <-. eexists. reflexivity.
  - injection Hth as <-. eexists. reflexivity.
  - destruct i; discriminate Hth.
Defined.

Lemma overlay_sends_iff_moved_witness :
  snd (Overlay.mouseup 2 (Overlay.mkMouse 10 60) sample_dragging) = [].
Proof.
  apply (proj1 (overlay_sends_iff_moved 2 (Overlay.mkMouse 10 60) sample_dragging eq_refl)).
  left. reflexivity.
Defined.

Lemma overlay_released_on_every_way_out_witness :
  Overlay.active sample_selected = true
  /\ Overlay.inject (Overlay.active sample_selected) = None
  /\ Overlay.active (fst (Overlay.on_response VUndefined success_reply sample_selected)) = false.
Proof.
  destruct (overlay_released_on_every_way_out 2 (Overlay.mkMouse 110 60) sample_dragging
              VUndefined success_reply eq_refl eq_refl) as [Hactive [Hinject [[Hreleased _] _]]].
  exact (conj Hactive (conj Hinject Hreleased)).
Defined.

Lemma areaSelected_listener_never_answers_witness :
  LegacyBackground.onMessage legacy_host (VObj [("type", VStr "captureArea")]) = [].
Proof.
  apply (proj2 (proj2 (areaSelected_listener_never_answers legacy_host
                         (VObj [("type", VStr "captureArea")])))).
  discriminate.
Defined.

Lemma areaSelected_copies_service_answer_witness :
  LegacyBackground.removed legacy_host = Some (mkBlob 90 "image/png" 100 50).
Proof.
  refine (proj1 (proj2 (proj2 (proj2
            (areaSelected_copies_service_answer legacy_host
               (LegacyOverlay.areaSelected_message (LegacyOverlay.mkRect 10 10 100 50) 2)
               "image/png" (mkBlob 90 "image/png" 100 50) _))))).
  vm_compute. auto 6.
Defined.


Lemma overlay_sends_what_it_shows_witness :
  0 <= 100 /\ 10 <= 10 /\ 10 <= 110 /\ 10 + 100 == Qmax 10 110.
Proof.
  exact (proj1 (proj2 (overlay_sends_what_it_shows (Overlay.mkMouse 110 60) sample_dragging eq_refl))).
Defined.
